(** * Firebase public-access checker: a shallow embedding of [firebase.py]

    The script is a linear sequence of HTTP requests, classification of the
    responses, printing and an exit code.  The embedding follows the source
    method by method:

    - Python values the script touches (JSON values, the per-endpoint result
      dictionaries, the write-result dictionary, exceptions) are inductive
      types and records;
    - the network, the clock and [urllib.parse.urlparse] are the
      environment: they are variables of the section that holds the program;
    - effects (the attribute [self.firebase_url], the printed lines, the
      requests issued) are threaded through a state-and-exception monad.  *)

From Stdlib Require Import String Ascii ZArith List Bool Lia DecimalString.
Import ListNotations.

Open Scope string_scope.
Open Scope Z_scope.

(** ** Python string operations used by the script *)

Module PyStr.

(** [s.rstrip(c)] for a one-character argument. *)
Fixpoint rstrip (c : ascii) (s : string) : string :=
  match s with
  | EmptyString => EmptyString
  | String a rest =>
      match rstrip c rest with
      | EmptyString => if Ascii.eqb a c then EmptyString else String a EmptyString
      | String _ _ as r => String a r
      end
  end.

(** [s.startswith(p)]. *)
Fixpoint startswith (s p : string) : bool :=
  match p, s with
  | EmptyString, _ => true
  | String a p', String b s' => Ascii.eqb a b && startswith s' p'
  | String _ _, EmptyString => false
  end.

(** [sub in s]. *)
Fixpoint contains (sub s : string) : bool :=
  if startswith s sub then true
  else match s with
       | EmptyString => false
       | String _ rest => contains sub rest
       end.

(** [s[:n]]. *)
Definition take (n : nat) (s : string) : string := String.substring 0 n s.

(** [c * n] for a one-character string. *)
Fixpoint replicate (n : nat) (c : ascii) : string :=
  match n with
  | O => EmptyString
  | S k => String c (replicate k c)
  end.

(** Truthiness of a string: non-empty. *)
Definition truthy (s : string) : bool :=
  match s with
  | EmptyString => false
  | String _ _ => true
  end.

(** [str(n)] for an integer. *)
Definition of_Z (z : Z) : string := NilZero.string_of_int (Z.to_int z).

(** [str(b)] for a bool. *)
Definition of_bool (b : bool) : string := if b then "True" else "False".

(** The newline character of ["\n..."] literals. *)
Definition nl : string := String (ascii_of_nat 10) EmptyString.

End PyStr.

(** ** Data model *)

(** A decoded JSON document, as [response.json()] returns it.  A float keeps
    its literal: the script only looks at the dynamic type. *)
#[local] Unset Elimination Schemes.
Inductive json_value : Type :=
| JNone
| JBool (b : bool)
| JInt (n : Z)
| JFloat (literal : string)
| JStr (s : string)
| JList (items : list json_value)
| JDict (items : list (string * json_value)).
#[local] Set Elimination Schemes.

(** [type(data).__name__]. *)
Definition type_name (data : json_value) : string :=
  match data with
  | JNone => "NoneType"
  | JBool _ => "bool"
  | JInt _ => "int"
  | JFloat _ => "float"
  | JStr _ => "str"
  | JList _ => "list"
  | JDict _ => "dict"
  end.

(** [data is not None]. *)
Definition is_not_None (data : json_value) : bool :=
  match data with
  | JNone => false
  | _ => true
  end.

(** [data != {}]: only a dict without items is equal to [{}]. *)
Definition ne_empty_dict (data : json_value) : bool :=
  match data with
  | JDict [] => false
  | _ => true
  end.

(** Exceptions the script distinguishes.  [Timeout] and [ConnectionError]
    are the [requests.exceptions] classes (an exception that is an instance
    of both is a [Timeout] here, since that handler comes first);
    [OtherException] is any other subclass of [Exception];
    [KeyboardInterrupt] and [SystemExit] derive from [BaseException] only. *)
Inductive exc : Type :=
| ValueError (msg : string)
| Timeout (msg : string)
| ConnectionError (msg : string)
| OtherException (msg : string)
| KeyboardInterrupt
| SystemExit (code : Z).

(** [isinstance(e, Exception)]. *)
Definition is_Exception (e : exc) : bool :=
  match e with
  | KeyboardInterrupt | SystemExit _ => false
  | _ => true
  end.

(** [str(e)]. *)
Definition str_exc (e : exc) : string :=
  match e with
  | ValueError m | Timeout m | ConnectionError m | OtherException m => m
  | KeyboardInterrupt => EmptyString
  | SystemExit c => PyStr.of_Z c
  end.

Inductive result (A : Type) : Type :=
| Ok (a : A)
| Raise (e : exc).
Arguments Ok {A} a.
Arguments Raise {A} e.

(** What the script reads of a [requests.Response]. *)
Record response : Type := mkResponse {
  status_code : Z;
  content : string;                      (* response.content, the raw body *)
  text : string;                         (* response.text *)
  content_type_header : option string;   (* response.headers.get('Content-Type') *)
  json : option json_value               (* response.json(); None: JSONDecodeError *)
}.

Inductive http_method : Type := GET | PUT | DELETE.

Record request : Type := mkRequest {
  req_method : http_method;
  req_url : string;
  req_timeout : Z;                       (* the timeout= keyword, in seconds *)
  req_json : option json_value;          (* the json= keyword of PUT *)
  req_user_agent : string
}.

(** One issued request with what came back. *)
Definition event : Type := (request * result response)%type.

(** An entry of the [results] dictionary of [check_public_read_access]:
    either the probe dictionary (its last two keys are set only after a
    200 with a body) or [{'error': ...}]. *)
Inductive read_entry : Type :=
| Probe (status : Z) (accessible : bool) (response_size : nat)
        (content_type : string) (has_data : option bool) (data_type : option string)
| ReadError (error : string).

(** [result.get('accessible', False)]. *)
Definition get_accessible (e : read_entry) : bool :=
  match e with
  | Probe _ a _ _ _ _ => a
  | ReadError _ => false
  end.

(** [result.get('has_data', False)]. *)
Definition get_has_data (e : read_entry) : bool :=
  match e with
  | Probe _ _ _ _ (Some h) _ => h
  | _ => false
  end.

(** The dictionary [check_public_write_access] returns, or the [{}] that
    [main] starts from. *)
Inductive write_result : Type :=
| WEmpty
| WResult (status : Z) (writable : bool) (response_snippet : string)
| WError (error : string).

(** [write_result.get('writable', False)]. *)
Definition get_writable (w : write_result) : bool :=
  match w with
  | WResult _ b _ => b
  | _ => false
  end.

(** Truthiness of [write_result.get('error')]: the key is there and its
    string is not empty. *)
Definition get_error_truthy (w : write_result) : bool :=
  match w with
  | WError m => PyStr.truthy m
  | _ => false
  end.

(** A Python dict with string keys, in insertion order. *)
Module Dict.

Definition t (V : Type) : Type := list (string * V).

Fixpoint set {V} (d : t V) (k : string) (v : V) : t V :=
  match d with
  | [] => [(k, v)]
  | (k', v') :: rest =>
      if String.eqb k' k then (k', v) :: rest else (k', v') :: set rest k v
  end.

Fixpoint get {V} (d : t V) (k : string) : option V :=
  match d with
  | [] => None
  | (k', v') :: rest => if String.eqb k' k then Some v' else get rest k
  end.

Definition keys {V} (d : t V) : list string := map fst d.
Definition values {V} (d : t V) : list V := map snd d.

End Dict.

(** The [--flag] values [argparse] hands to [main]. *)
Record args : Type := mkArgs {
  arg_firebase_url : string;
  arg_skip_write_test : bool;
  arg_timeout : Z
}.

(** ** Effects: a state-and-exception monad

    The state holds the one mutable attribute of the checker object, the
    requests issued so far with their outcomes, the lines printed so far and
    the number of clock readings taken.  An exception leaves the state as it
    was when it was raised. *)

Record state : Type := mkState {
  self_firebase_url : string;
  trace : list event;
  stdout : list string;
  clock_reads : nat
}.

Definition initial_state : state :=
  {| self_firebase_url := EmptyString; trace := []; stdout := []; clock_reads := 0 |}.

Definition M (A : Type) : Type := state -> result A * state.

Definition ret {A} (a : A) : M A := fun s => (Ok a, s).

Definition bind {A B} (m : M A) (k : A -> M B) : M B :=
  fun s =>
    match m s with
    | (Ok a, s') => k a s'
    | (Raise e, s') => (Raise e, s')
    end.

Definition raise {A} (e : exc) : M A := fun s => (Raise e, s).

(** [try: body except ...: handler]; a handler re-raises what no clause
    of the source matches. *)
Definition try_except {A} (body : M A) (handler : exc -> M A) : M A :=
  fun s =>
    match body s with
    | (Ok a, s') => (Ok a, s')
    | (Raise e, s') => handler e s'
    end.

Declare Scope py_scope.
Delimit Scope py_scope with py.
Notation "x <- m ;; k" := (bind m (fun x => k))
  (at level 61, m at next level, right associativity) : py_scope.
Notation "m ;; k" := (bind m (fun _ => k))
  (at level 61, right associativity) : py_scope.
Open Scope py_scope.

Definition get_firebase_url : M string :=
  fun s => (Ok (self_firebase_url s), s).

Definition set_firebase_url (u : string) : M unit :=
  fun s => (Ok tt, {| self_firebase_url := u; trace := trace s;
                      stdout := stdout s; clock_reads := clock_reads s |}).

(** [print(line)]. *)
Definition print (line : string) : M unit :=
  fun s => (Ok tt, {| self_firebase_url := self_firebase_url s; trace := trace s;
                      stdout := stdout s ++ [line]; clock_reads := clock_reads s |}).

(** [sys.exit(code)]. *)
Definition sys_exit {A} (code : Z) : M A := raise (SystemExit code).

(** [if c: body] with no [else]. *)
Definition when (c : bool) (body : M unit) : M unit :=
  if c then body else ret tt.

(** [for x in xs: acc = body(x, acc)]. *)
Fixpoint for_each {A S} (xs : list A) (body : A -> S -> M S) (acc : S) : M S :=
  match xs with
  | [] => ret acc
  | x :: rest => acc' <- body x acc ;; for_each rest body acc'
  end.

(** ** A concrete environment

    The properties below hold for every environment.  To run the program on
    concrete inputs, this module gives one: the authority part of
    CPython's [urllib.parse.urlsplit], and a few servers. *)

Module UrlParse.

Definition is_c0_or_space (c : ascii) : bool := (nat_of_ascii c <=? 32)%nat.

Definition is_unsafe (c : ascii) : bool :=
  let n := nat_of_ascii c in ((n =? 9) || (n =? 10) || (n =? 13))%nat.

Definition is_alpha (c : ascii) : bool :=
  let n := nat_of_ascii c in
  (((65 <=? n) && (n <=? 90)) || ((97 <=? n) && (n <=? 122)))%nat.

Definition is_digit (c : ascii) : bool :=
  let n := nat_of_ascii c in ((48 <=? n) && (n <=? 57))%nat.

(** Membership in [scheme_chars]: letters, digits and [+-.]. *)
Definition is_scheme_char (c : ascii) : bool :=
  let n := nat_of_ascii c in
  (is_alpha c || is_digit c || (n =? 43) || (n =? 45) || (n =? 46))%nat.

(** [url.lstrip(_WHATWG_C0_CONTROL_OR_SPACE)]. *)
Fixpoint lstrip_c0 (s : string) : string :=
  match s with
  | String c rest => if is_c0_or_space c then lstrip_c0 rest else s
  | EmptyString => EmptyString
  end.

(** Removal of tab, carriage return and line feed. *)
Fixpoint remove_unsafe (s : string) : string :=
  match s with
  | String c rest =>
      if is_unsafe c then remove_unsafe rest else String c (remove_unsafe rest)
  | EmptyString => EmptyString
  end.

(** [(url[:i], url[i+1:])] for [i = url.find(':')], when there is a colon. *)
Fixpoint split_colon (s : string) : option (string * string) :=
  match s with
  | EmptyString => None
  | String c rest =>
      if Ascii.eqb c ":" then Some (EmptyString, rest)
      else match split_colon rest with
           | Some (pre, post) => Some (String c pre, post)
           | None => None
           end
  end.

Fixpoint all_chars (p : ascii -> bool) (s : string) : bool :=
  match s with
  | EmptyString => true
  | String c rest => p c && all_chars p rest
  end.

Fixpoint has_char (c : ascii) (s : string) : bool :=
  match s with
  | EmptyString => false
  | String d rest => Ascii.eqb c d || has_char c rest
  end.

(** The URL after a leading [scheme:] is removed, if there is one. *)
Definition drop_scheme (url : string) : string :=
  match split_colon url with
  | Some (String c _ as pre, post) =>
      if is_alpha c && all_chars is_scheme_char pre then post else url
  | _ => url
  end.

(** [_splitnetloc(url, 2)[0]] on what follows the two slashes. *)
Fixpoint take_netloc (s : string) : string :=
  match s with
  | EmptyString => EmptyString
  | String c rest =>
      if Ascii.eqb c "/" || Ascii.eqb c "?" || Ascii.eqb c "#" then EmptyString
      else String c (take_netloc rest)
  end.

(** [urlsplit(url).netloc].  The checks of a bracketed (IPv6) host and of
    non-ASCII characters are left out: on a host without brackets and
    with ASCII characters only they do nothing. *)
Definition urlsplit_netloc (url : string) : result string :=
  match drop_scheme (remove_unsafe (lstrip_c0 url)) with
  | String "/" (String "/" rest) =>
      let netloc := take_netloc rest in
      if xorb (has_char "[" netloc) (has_char "]" netloc)
      then Raise (ValueError "Invalid IPv6 URL")
      else Ok netloc
  | _ => Ok EmptyString
  end.


End UrlParse.

Module Servers.

Definition respond (status : Z) (body : string) (decoded : option json_value) : response :=
  {| status_code := status; content := body; text := body;
     content_type_header := Some "application/json; charset=utf-8";
     json := decoded |}.

(** A locked database: every request is refused. *)
Definition locked : list event -> request -> result response :=
  fun _ _ => Ok (respond 401 "Permission denied" None).

(** An open database holding [body] at every path; PUT answers [put_status]. *)
Definition open (body : string) (decoded : option json_value) (put_status : Z)
  : list event -> request -> result response :=
  fun _ rq =>
    match req_method rq with
    | GET => Ok (respond 200 body decoded)
    | PUT => Ok (respond put_status EmptyString None)
    | DELETE => Ok (respond 200 "null" (Some JNone))
    end.

(** Reads are refused; the PUT fails with exception [e]. *)
Definition put_fails (e : exc) : list event -> request -> result response :=
  fun _ rq =>
    match req_method rq with
    | PUT => Raise e
    | _ => Ok (respond 401 "denied" None)
    end.

(** The first request times out, the next ones are refused. *)
Definition first_times_out : list event -> request -> result response :=
  fun history _ =>
    match history with
    | [] => Raise (Timeout "Read timed out. (read timeout=10)")
    | _ => Ok (respond 401 "denied" None)
    end.

Definition clock : nat -> Z := fun k => 1700000000 + Z.of_nat k.

(** A parser that finds the same host in every URL. *)
Definition fixed_host : string -> result string :=
  fun _ => Ok "demo-default-rtdb.firebaseio.com".

(** A parser that finds a host outside the Firebase domains. *)
Definition other_host : string -> result string :=
  fun _ => Ok "example.org".


End Servers.

(** Sample runs. *)
Module Runs.

Definition parse := UrlParse.urlsplit_netloc.

Definition demo (skip : bool) (timeout : Z) : args :=
  mkArgs "demo-default-rtdb.firebaseio.com/" skip timeout.

Definition demo_url : string := "https://demo-default-rtdb.firebaseio.com".

(** The methods and timeouts of the requests of a run, in order. *)
Definition methods_and_timeouts (tr : list event) : list (http_method * Z) :=
  map (fun ev => (req_method (fst ev), req_timeout (fst ev))) tr.

End Runs.

(** ** The program *)

Section Checker.

(** The environment.  [urlparse_netloc u] is [urlparse(u).netloc], or the
    exception [urlparse] raises.  [net history rq] is what the session
    gives for request [rq] after the requests of [history]: a response or
    a raised exception.  [time_int k] is the value of the [k]-th
    [int(time.time())]. *)
Variable urlparse_netloc : string -> result string.
Variable net : list event -> request -> result response.
Variable time_int : nat -> Z.

Definition urlparse (u : string) : M string :=
  fun s => (urlparse_netloc u, s).

Definition time_time_int : M Z :=
  fun s => (Ok (time_int (clock_reads s)),
            {| self_firebase_url := self_firebase_url s; trace := trace s;
               stdout := stdout s; clock_reads := S (clock_reads s) |}).

(** A request through [self.session]: the outcome is recorded, a raised
    exception propagates. *)
Definition session_send (rq : request) : M response :=
  fun s =>
    let out := net (trace s) rq in
    (out, {| self_firebase_url := self_firebase_url s;
             trace := trace s ++ [(rq, out)];
             stdout := stdout s; clock_reads := clock_reads s |}).

Definition user_agent : string := "Firebase-Public-Checker/1.0".

Definition session_get (url : string) (timeout : Z) : M response :=
  session_send (mkRequest GET url timeout None user_agent).

Definition session_put (url : string) (body : json_value) (timeout : Z) : M response :=
  session_send (mkRequest PUT url timeout (Some body) user_agent).

Definition session_delete (url : string) (timeout : Z) : M response :=
  session_send (mkRequest DELETE url timeout None user_agent).

(** [time.sleep(0.5)]: a pause with no effect on the state. *)
Definition time_sleep_half : M unit := ret tt.

(** [FirebaseChecker.__init__]. *)
Definition init (firebase_url : string) : M unit :=
  set_firebase_url (PyStr.rstrip "/" firebase_url).

(** [FirebaseChecker.normalize_url]. *)
Definition normalize_url : M string :=
  url <- get_firebase_url ;;
  when (negb (PyStr.startswith url "http"))
       (set_firebase_url ("https://" ++ url)) ;;
  url <- get_firebase_url ;;
  netloc <- urlparse url ;;
  when (negb (PyStr.truthy netloc))
       (raise (ValueError "Invalid Firebase URL format")) ;;
  when (negb (PyStr.contains "firebaseio.com" netloc)
        && negb (PyStr.contains "firebasedatabase.app" netloc))
       (print "⚠️  Warning: URL doesn't appear to be a Firebase database URL") ;;
  get_firebase_url.

Definition test_endpoints : list string :=
  [".json"; "/.json?shallow=true"; "/test.json"].

(** The dictionary stored at [results[endpoint]] for a response, with the
    two keys added after a 200 with a body. *)
Definition probe_entry (r : response) : read_entry :=
  let ok := status_code r =? 200 in
  let size := String.length (content r) in
  let ctype := match content_type_header r with
               | Some c => c
               | None => "unknown"
               end in
  if ok && PyStr.truthy (content r) then
    match json r with
    | Some data =>
        Probe (status_code r) ok size ctype
              (Some (is_not_None data && ne_empty_dict data))
              (Some (type_name data))
    | None =>
        Probe (status_code r) ok size ctype (Some false) (Some "invalid_json")
    end
  else Probe (status_code r) ok size ctype None None.

(** The body of the loop of [check_public_read_access]. *)
Definition probe_endpoint (endpoint : string) (results : Dict.t read_entry)
  : M (Dict.t read_entry) :=
  base <- get_firebase_url ;;
  let url := base ++ endpoint in
  try_except
    (print ("Testing: " ++ url) ;;
     r <- session_get url 10 ;;
     let results := Dict.set results endpoint (probe_entry r) in
     time_sleep_half ;;
     ret results)
    (fun e =>
       match e with
       | Timeout _ =>
           let results := Dict.set results endpoint (ReadError "Request timed out") in
           print ("❌ Timeout for " ++ url) ;;
           ret results
       | ConnectionError _ =>
           let results := Dict.set results endpoint (ReadError "Connection error") in
           print ("❌ Connection error for " ++ url) ;;
           ret results
       | ValueError _ | OtherException _ =>
           let results := Dict.set results endpoint (ReadError (str_exc e)) in
           print ("❌ Error for " ++ url ++ ": " ++ str_exc e) ;;
           ret results
       | KeyboardInterrupt | SystemExit _ => raise e
       end).

(** [FirebaseChecker.check_public_read_access]. *)
Definition check_public_read_access : M (Dict.t read_entry) :=
  for_each test_endpoints probe_endpoint [].

(** [FirebaseChecker.check_public_write_access]. *)
Definition check_public_write_access : M write_result :=
  base <- get_firebase_url ;;
  t1 <- time_time_int ;;
  let test_url := base ++ "/security_test_" ++ PyStr.of_Z t1 ++ ".json" in
  t2 <- time_time_int ;;
  let test_data := JDict [("test", JStr "security_check"); ("timestamp", JInt t2)] in
  try_except
    (print ("Testing write access: " ++ test_url) ;;
     r <- session_put test_url test_data 10 ;;
     let writable := (status_code r =? 200) || (status_code r =? 201) in
     let write_result :=
       WResult (status_code r) writable
               (if PyStr.truthy (text r) then PyStr.take 200 (text r) else EmptyString) in
     when writable
          (try_except
             (session_delete test_url 5 ;;
              print "✅ Cleaned up test data")
             (fun _ => print "⚠️  Could not clean up test data")) ;;
     ret write_result)
    (fun e =>
       if is_Exception e then ret (WError (str_exc e)) else raise e).

(** [any(result.get('accessible', False) for result in read_results.values())]. *)
Definition any_accessible (read_results : Dict.t read_entry) : bool :=
  existsb get_accessible (Dict.values read_results).

(** [any(result.get('has_data', False) for result in read_results.values())]. *)
Definition any_has_data (read_results : Dict.t read_entry) : bool :=
  existsb get_has_data (Dict.values read_results).

(** One round of the "detailed results" loop of [generate_report]. *)
Definition report_entry (item : string * read_entry) (_ : unit) : M unit :=
  let (endpoint, result) := item in
  print (PyStr.nl ++ "   Endpoint: " ++ endpoint) ;;
  match result with
  | ReadError err => print ("     Status: Error - " ++ err)
  | Probe status accessible _ _ has_data _ =>
      print ("     Status Code: " ++ PyStr.of_Z status) ;;
      print ("     Accessible: " ++ PyStr.of_bool accessible) ;;
      print ("     Has Data: " ++ match has_data with
                                   | Some h => PyStr.of_bool h
                                   | None => "N/A"
                                   end)
  end.

Definition line_publicly_readable : string :=
  "❌ PUBLICLY READABLE - No authentication required!".
Definition line_read_restricted : string :=
  "✅ Read access properly restricted".
Definition line_publicly_writable : string :=
  "❌ PUBLICLY WRITABLE - Anyone can modify data!".
Definition line_could_not_test (err : string) : string :=
  "⚠️  Could not test write access: " ++ err.
Definition line_write_restricted : string :=
  "✅ Write access properly restricted".
Definition line_insecure : string :=
  "🚨 INSECURE - Immediate action required!".
Definition line_secured : string :=
  "✅ Database appears to be properly secured".

(** [FirebaseChecker.generate_report]. *)
Definition generate_report (read_results : Dict.t read_entry)
           (write_result : write_result) : M bool :=
  print (PyStr.nl ++ PyStr.replicate 60 "=") ;;
  print "🔍 FIREBASE SECURITY ANALYSIS REPORT" ;;
  print (PyStr.replicate 60 "=") ;;
  url <- get_firebase_url ;;
  print (PyStr.nl ++ "📍 Database URL: " ++ url) ;;
  let public_readable := any_accessible read_results in
  let has_data := any_has_data read_results in
  print (PyStr.nl ++ "📖 READ ACCESS:") ;;
  (if public_readable then
     print line_publicly_readable ;;
     if has_data then
       print "⚠️  Database contains data that is publicly accessible"
     else
       print "ℹ️  Database is empty or contains null values"
   else
     print line_read_restricted) ;;
  print (PyStr.nl ++ "✏️  WRITE ACCESS:") ;;
  (if get_writable write_result then
     print line_publicly_writable ;;
     print "🚨 CRITICAL SECURITY RISK!"
   else if get_error_truthy write_result then
     print (line_could_not_test
              match write_result with
              | WError err => err
              | _ => EmptyString
              end)
   else
     print line_write_restricted) ;;
  print (PyStr.nl ++ "🛡️  OVERALL SECURITY STATUS:") ;;
  (if public_readable || get_writable write_result then
     print line_insecure ;;
     print (PyStr.nl ++ "💡 RECOMMENDATIONS:") ;;
     print "   1. Review Firebase Security Rules" ;;
     print "   2. Implement proper authentication" ;;
     print "   3. Restrict database access to authenticated users only" ;;
     print "   4. Monitor database access logs"
   else
     print line_secured) ;;
  print (PyStr.nl ++ "📊 DETAILED RESULTS:") ;;
  for_each read_results report_entry tt ;;
  ret (public_readable || get_writable write_result).

(** The part of [main] between the parsing of the arguments and the
    report: it builds the checker, validates the URL and runs the probes.
    Its value is the pair [main] passes to [generate_report]. *)
Definition run_probes (a : args) : M (Dict.t read_entry * write_result) :=
  init (arg_firebase_url a) ;;
  normalized_url <- normalize_url ;;
  print ("🔍 Checking Firebase database: " ++ normalized_url) ;;
  print (PyStr.nl ++ "📖 Testing read access...") ;;
  read_results <- check_public_read_access ;;
  write_result <-
    (if negb (arg_skip_write_test a) then
       print (PyStr.nl ++ "✏️  Testing write access...") ;;
       check_public_write_access
     else
       print (PyStr.nl ++ "✏️  Skipping write access test") ;;
       ret WEmpty) ;;
  ret (read_results, write_result).

(** The [try] block of [main]. *)
Definition main_try (a : args) : M unit :=
  probes <- run_probes a ;;
  is_insecure <- generate_report (fst probes) (snd probes) ;;
  sys_exit (if is_insecure then 1 else 0).

(** [main], after [parser.parse_args()]. *)
Definition main (a : args) : M unit :=
  try_except (main_try a)
    (fun e =>
       match e with
       | ValueError _ =>
           print ("❌ Invalid URL: " ++ str_exc e) ;;
           sys_exit 2
       | KeyboardInterrupt =>
           print (PyStr.nl ++ "⏹️  Check cancelled by user") ;;
           sys_exit 130
       | SystemExit _ => raise e
       | Timeout _ | ConnectionError _ | OtherException _ =>
           print ("❌ Unexpected error: " ++ str_exc e) ;;
           sys_exit 1
       end).

(** The process: [main()] from a fresh state.  The exit code is the one
    of the [SystemExit] that ends [main]. *)
Definition exit_code_of (r : result unit) : Z :=
  match r with
  | Raise (SystemExit c) => c
  | Ok _ => 0
  | Raise _ => 1
  end.

Definition run (a : args) : Z * state :=
  let (r, s) := main a initial_state in (exit_code_of r, s).

Definition exit_code (a : args) : Z := fst (run a).
Definition requests_of (a : args) : list event := trace (snd (run a)).
Definition output_of (a : args) : list string := stdout (snd (run a)).


(** ** Notions used to state the properties *)

(** The value of [self.firebase_url] after [__init__] and the first
    statement of [normalize_url], for the raw command-line argument. *)
Definition normalized (raw : string) : string :=
  let url := PyStr.rstrip "/" raw in
  if PyStr.startswith url "http" then url else "https://" ++ url.

(** The GET that [check_public_read_access] issues for an endpoint. *)
Definition read_request (base endpoint : string) : request :=
  mkRequest GET (base ++ endpoint) 10 None user_agent.

Definition read_requests (base : string) : list request :=
  map (read_request base) test_endpoints.

(** The entry [check_public_read_access] stores for an outcome that the
    loop body handles. *)
Definition entry_of (out : result response) : read_entry :=
  match out with
  | Ok r => probe_entry r
  | Raise (Timeout _) => ReadError "Request timed out"
  | Raise (ConnectionError _) => ReadError "Connection error"
  | Raise e => ReadError (str_exc e)
  end.

(** An outcome the loop of [check_public_read_access] turns into an entry:
    a response or an instance of [Exception]. *)
Definition handled (out : result response) : bool :=
  match out with
  | Ok _ => true
  | Raise e => is_Exception e
  end.

(** The optional keys of a probe entry. *)
Definition has_data_of (e : read_entry) : option bool :=
  match e with
  | Probe _ _ _ _ h _ => h
  | ReadError _ => None
  end.


(** An entry that records [accessible == True]. *)
Definition recorded_accessible (e : read_entry) : Prop :=
  exists status size ctype has_data data_type,
    e = Probe status true size ctype has_data data_type.

(** A write result that records [writable == True]. *)
Definition recorded_writable (w : write_result) : Prop :=
  exists status snippet, w = WResult status true snippet.

(** A line of the "could not test" kind. *)
Definition is_could_not_test (line : string) : bool :=
  PyStr.startswith line "⚠️  Could not test write access".

(** A line that gives a verdict on write access: one of the three the
    report chooses between. *)
Definition is_write_verdict (line : string) : bool :=
  is_could_not_test line
  || String.eqb line line_write_restricted
  || String.eqb line line_publicly_writable.

(** The verdict line [generate_report] prints for a write result. *)
Definition write_verdict (w : write_result) : string :=
  match w with
  | WResult _ true _ => line_publicly_writable
  | WError (String _ _ as err) => line_could_not_test err
  | _ => line_write_restricted
  end.

(** The lines [generate_report] prints, as lists: what comes before the
    write verdict, and what comes after it. *)
Definition report_head (url : string) (rr : Dict.t read_entry) : list string :=
  [PyStr.nl ++ PyStr.replicate 60 "=";
   "🔍 FIREBASE SECURITY ANALYSIS REPORT";
   PyStr.replicate 60 "=";
   PyStr.nl ++ "📍 Database URL: " ++ url;
   PyStr.nl ++ "📖 READ ACCESS:"]
  ++ (if any_accessible rr then
        [line_publicly_readable;
         if any_has_data rr
         then "⚠️  Database contains data that is publicly accessible"
         else "ℹ️  Database is empty or contains null values"]
      else [line_read_restricted])
  ++ [PyStr.nl ++ "✏️  WRITE ACCESS:"].

Definition detail_lines (item : string * read_entry) : list string :=
  (PyStr.nl ++ "   Endpoint: " ++ fst item)
  :: match snd item with
     | ReadError err => ["     Status: Error - " ++ err]
     | Probe status accessible _ _ has_data _ =>
         ["     Status Code: " ++ PyStr.of_Z status;
          "     Accessible: " ++ PyStr.of_bool accessible;
          "     Has Data: " ++ match has_data with
                                 | Some h => PyStr.of_bool h
                                 | None => "N/A"
                                 end]
     end.

Definition report_tail (rr : Dict.t read_entry) (wr : write_result) : list string :=
  (if get_writable wr then ["🚨 CRITICAL SECURITY RISK!"] else [])
  ++ [PyStr.nl ++ "🛡️  OVERALL SECURITY STATUS:"]
  ++ (if any_accessible rr || get_writable wr then
        [line_insecure;
         PyStr.nl ++ "💡 RECOMMENDATIONS:";
         "   1. Review Firebase Security Rules";
         "   2. Implement proper authentication";
         "   3. Restrict database access to authenticated users only";
         "   4. Monitor database access logs"]
      else [line_secured])
  ++ [PyStr.nl ++ "📊 DETAILED RESULTS:"]
  ++ flat_map detail_lines rr.

(** The lines the loop body of [check_public_read_access] prints for an
    endpoint URL and the outcome of its request. *)
Definition probe_lines (url : string) (out : result response) : list string :=
  ("Testing: " ++ url)
  :: match out with
     | Raise (Timeout _) => ["❌ Timeout for " ++ url]
     | Raise (ConnectionError _) => ["❌ Connection error for " ++ url]
     | Raise (ValueError _ as e) | Raise (OtherException _ as e) =>
         ["❌ Error for " ++ url ++ ": " ++ str_exc e]
     | _ => []
     end.

(** The state after some requests are issued and some lines printed. *)
Definition advance (s : state) (tr : list event) (lines : list string) : state :=
  mkState (self_firebase_url s) (trace s ++ tr) (stdout s ++ lines) (clock_reads s).

(** The dictionary the read loop builds from the outcomes of its requests. *)
Definition store_entries (results : Dict.t read_entry)
           (endpoints : list string) (tr : list event) : Dict.t read_entry :=
  fold_left (fun d p => Dict.set d (fst p) (entry_of (snd (snd p))))
            (combine endpoints tr) results.

(** The PUT that [check_public_write_access] issues, for the two clock
    readings it takes. *)
Definition write_url (base : string) (t1 : Z) : string :=
  base ++ "/security_test_" ++ PyStr.of_Z t1 ++ ".json".

Definition write_request (base : string) (t1 t2 : Z) : request :=
  mkRequest PUT (write_url base t1) 10
            (Some (JDict [("test", JStr "security_check"); ("timestamp", JInt t2)]))
            user_agent.

(** [response.status_code in [200, 201]]. *)
Definition status_writable (r : response) : bool :=
  (status_code r =? 200) || (status_code r =? 201).

(** What [check_public_write_access] makes of the outcome of its PUT. *)
Definition write_result_of (out : result response) : result write_result :=
  match out with
  | Ok r =>
      Ok (WResult (status_code r) (status_writable r)
                  (if PyStr.truthy (text r) then PyStr.take 200 (text r)
                   else EmptyString))
  | Raise e => if is_Exception e then Ok (WError (str_exc e)) else Raise e
  end.

(** [s'] is [s] after the requests [tr] and the lines [lines]. *)
Definition extends (s s' : state) (tr : list event) (lines : list string) : Prop :=
  self_firebase_url s' = self_firebase_url s /\
  trace s' = (trace s ++ tr)%list /\
  stdout s' = (stdout s ++ lines)%list.

(** What [normalize_url] prints for the host it found. *)
Definition warning_lines (netloc : string) : list string :=
  if negb (PyStr.contains "firebaseio.com" netloc)
     && negb (PyStr.contains "firebasedatabase.app" netloc)
  then ["⚠️  Warning: URL doesn't appear to be a Firebase database URL"]
  else [].

(** What [normalize_url] does to the state [__init__] leaves, by what
    [urlparse] makes of the URL. *)
Definition normalize_outcome (raw : string) : result string * state :=
  let url := normalized raw in
  match urlparse_netloc url with
  | Raise e => (Raise e, mkState url [] [] 0)
  | Ok netloc =>
      if PyStr.truthy netloc
      then (Ok url, mkState url [] (warning_lines netloc) 0)
      else (Raise (ValueError "Invalid Firebase URL format"), mkState url [] [] 0)
  end.

(** The ways the probing part of [main] can go, with the value it ends
    with and the requests it has issued: the URL is rejected; a read probe
    is interrupted by an exception that is no [Exception]; the three reads
    are done and the write test is skipped; the three reads are done and
    the write test is run. *)
Inductive probes_shape (a : args)
  : result (Dict.t read_entry * write_result) -> list event -> Prop :=
| shape_invalid (e : exc) :
    fst (normalize_outcome (arg_firebase_url a)) = Raise e ->
    probes_shape a (Raise e) []
| shape_interrupted (e : exc) (reads : list event) (rest : list request) :
    is_Exception e = false ->
    (exists rq, In (rq, Raise e) reads) ->
    (map fst reads ++ rest)%list
    = read_requests (normalized (arg_firebase_url a)) ->
    probes_shape a (Raise e) reads
| shape_skipped (reads : list event) :
    arg_skip_write_test a = true ->
    map fst reads = read_requests (normalized (arg_firebase_url a)) ->
    Forall (fun ev => handled (snd ev) = true) reads ->
    probes_shape a (Ok (store_entries [] test_endpoints reads, WEmpty)) reads
| shape_written (reads cleanup : list event) (t1 t2 : Z) (out : result response) :
    arg_skip_write_test a = false ->
    map fst reads = read_requests (normalized (arg_firebase_url a)) ->
    Forall (fun ev => handled (snd ev) = true) reads ->
    Forall (fun ev => req_method (fst ev) = DELETE) cleanup ->
    probes_shape a
      match write_result_of out with
      | Ok wr => Ok (store_entries [] test_endpoints reads, wr)
      | Raise e => Raise e
      end
      (reads ++ (write_request (normalized (arg_firebase_url a)) t1 t2, out)
             :: cleanup).

(** The lines [main] prints once the probing part has ended with [r]. *)
Definition closing_lines (url : string)
           (r : result (Dict.t read_entry * write_result)) : list string :=
  match r with
  | Ok (rr, wr) => report_head url rr ++ [write_verdict wr] ++ report_tail rr wr
  | Raise (ValueError m) => ["❌ Invalid URL: " ++ m]
  | Raise KeyboardInterrupt => [PyStr.nl ++ "⏹️  Check cancelled by user"]
  | Raise (SystemExit _) => []
  | Raise e => ["❌ Unexpected error: " ++ str_exc e]
  end.

(** The exit code of the process once the probing part has ended with [r]. *)
Definition closing_code (r : result (Dict.t read_entry * write_result)) : Z :=
  match r with
  | Ok (rr, wr) => if any_accessible rr || get_writable wr then 1 else 0
  | Raise (ValueError _) => 2
  | Raise KeyboardInterrupt => 130
  | Raise (SystemExit c) => c
  | Raise _ => 1
  end.

(** The DELETE that cleans up after a PUT that was accepted. *)
Definition delete_request (base : string) (t1 : Z) : request :=
  mkRequest DELETE (write_url base t1) 5 None user_agent.

(** A PUT outcome after which the script deletes the test data. *)
Definition put_succeeded (out : result response) : bool :=
  match out with
  | Ok r => status_writable r
  | Raise _ => false
  end.

(** An event whose outcome is what the network gave for its request. *)
Definition from_net (ev : event) : Prop :=
  exists history, net history (fst ev) = snd ev.

(** The probing part of [main] in full detail: as [probes_shape], with the
    place where an interrupted run stops, the clock readings in the PUT,
    and the DELETE that follows an accepted PUT. *)
Inductive probes_anatomy (a : args)
  : result (Dict.t read_entry * write_result) -> list event -> Prop :=
| anatomy_rejected (e : exc) :
    fst (normalize_outcome (arg_firebase_url a)) = Raise e ->
    probes_anatomy a (Raise e) []
| anatomy_interrupted (e : exc) (done : list event) (rq : request)
                      (rest : list request) :
    is_Exception e = false ->
    Forall (fun ev => handled (snd ev) = true) done ->
    (map fst done ++ rq :: rest)%list
    = read_requests (normalized (arg_firebase_url a)) ->
    probes_anatomy a (Raise e) (done ++ [(rq, Raise e)])
| anatomy_skipped (reads : list event) :
    arg_skip_write_test a = true ->
    map fst reads = read_requests (normalized (arg_firebase_url a)) ->
    Forall (fun ev => handled (snd ev) = true) reads ->
    probes_anatomy a (Ok (store_entries [] test_endpoints reads, WEmpty)) reads
| anatomy_written (reads cleanup : list event) (out : result response) :
    arg_skip_write_test a = false ->
    map fst reads = read_requests (normalized (arg_firebase_url a)) ->
    Forall (fun ev => handled (snd ev) = true) reads ->
    (if put_succeeded out
     then exists dout,
         cleanup = [(delete_request (normalized (arg_firebase_url a)) (time_int 0),
                     dout)]
     else cleanup = []) ->
    probes_anatomy a
      match write_result_of out with
      | Ok wr => Ok (store_entries [] test_endpoints reads, wr)
      | Raise e => Raise e
      end
      (reads ++ (write_request (normalized (arg_firebase_url a))
                               (time_int 0) (time_int 1), out)
             :: cleanup).



Definition line_cancelled : string :=
  PyStr.nl ++ "⏹️  Check cancelled by user".

(** A state with other printed lines. *)
Definition with_stdout (s : state) (lines : list string) : state :=
  mkState (self_firebase_url s) (trace s) lines (clock_reads s).

(** The part of [main] between [normalize_url] and the report. *)
Definition probes_after_normalize (a : args)
  : M (Dict.t read_entry * write_result) :=
  print (PyStr.nl ++ "📖 Testing read access...") ;;
  read_results <- check_public_read_access ;;
  write_result <-
    (if negb (arg_skip_write_test a) then
       print (PyStr.nl ++ "✏️  Testing write access...") ;;
       check_public_write_access
     else
       print (PyStr.nl ++ "✏️  Skipping write access test") ;;
       ret WEmpty) ;;
  ret (read_results, write_result).

(** The state after some more lines are printed. *)
Definition put_lines (s : state) (lines : list string) : state :=
  mkState (self_firebase_url s) (trace s) (stdout s ++ lines) (clock_reads s).

(** [m] is a computation that, with [url] in the attribute, returns [a]
    and does nothing but print [lines]. *)
Definition says (url : string) {A} (m : M A) (a : A) (lines : list string) : Prop :=
  forall s, self_firebase_url s = url -> m s = (Ok a, put_lines s lines).

(** The state [main] is in once [normalize_url] has set the attribute. *)
Definition after_init (a : args) : state :=
  mkState (normalized (arg_firebase_url a)) [] [] 0.


(** ** Properties *)

Ltac unfold_py :=
unfold bind, ret, raise, try_except, when, print, sys_exit,
  get_firebase_url, set_firebase_url, urlparse, time_time_int,
  time_sleep_half, session_get, session_put, session_delete, session_send, init in *.

Lemma get_accessible_recorded (e : read_entry) :
get_accessible e = true <-> recorded_accessible e.
Proof.
split.
- destruct e as [st a sz ct hd dt | err]; simpl; intros H; [|discriminate].
  subst a. now exists st, sz, ct, hd, dt.
- intros (st & sz & ct & hd & dt & ->). reflexivity.
Qed.

Lemma get_writable_recorded (w : write_result) :
get_writable w = true <-> recorded_writable w.
Proof.
split.
- destruct w as [| st b sn | err]; simpl; intros H; try discriminate.
  subst b. now exists st, sn.
- intros (st & sn & ->). reflexivity.
Qed.

Lemma any_accessible_spec (rr : Dict.t read_entry) :
any_accessible rr = true <->
exists endpoint e, In (endpoint, e) rr /\ recorded_accessible e.
Proof.
unfold any_accessible, Dict.values. rewrite existsb_exists. split.
- intros (e & Hin & He). apply in_map_iff in Hin as ([k v] & <- & Hin).
  exists k, v. split; [assumption|]. now apply get_accessible_recorded.
- intros (k & e & Hin & He). exists e. split.
  + apply in_map_iff. now exists (k, e).
  + now apply get_accessible_recorded.
Qed.



(** *** Computations that only print *)

Lemma put_lines_nil (s : state) : put_lines s [] = s.
Proof. destruct s. unfold put_lines. simpl. now rewrite app_nil_r. Qed.

Lemma put_lines_app (s : state) (l1 l2 : list string) :
  put_lines (put_lines s l1) l2 = put_lines s (l1 ++ l2).
Proof. unfold put_lines. simpl. now rewrite app_assoc. Qed.

Lemma says_ret (url : string) {A} (a : A) : says url (ret a) a [].
Proof. intros s _. unfold ret. now rewrite put_lines_nil. Qed.

Lemma says_print (url line : string) : says url (print line) tt [line].
Proof. intros s _. reflexivity. Qed.

Lemma says_get_firebase_url (url : string) : says url get_firebase_url url [].
Proof. intros s <-. unfold get_firebase_url. now rewrite put_lines_nil. Qed.

Lemma says_bind (url : string) {A B} (m : M A) (k : A -> M B)
      (a : A) (b : B) (l1 l2 : list string) :
  says url m a l1 -> says url (k a) b l2 -> says url (bind m k) b (l1 ++ l2).
Proof.
  intros Hm Hk s Hs. unfold bind. rewrite (Hm s Hs).
  rewrite (Hk (put_lines s l1) Hs). now rewrite put_lines_app.
Qed.

Lemma says_eq (url : string) {A} (m : M A) (a : A) (l l' : list string) :
  says url m a l -> l = l' -> says url m a l'.
Proof. now intros H <-. Qed.

Lemma says_report_entries (url : string) (rr : Dict.t read_entry) :
  says url (for_each rr report_entry tt) tt (flat_map detail_lines rr).
Proof.
  induction rr as [| [endpoint result] rest IH].
  - apply says_ret.
  - cbn [for_each flat_map]. eapply says_bind; [| exact IH].
    destruct result as [st acc sz ct hd dt | err]; cbn [report_entry].
    + eapply says_eq.
      * eapply says_bind; [apply says_print|].
        eapply says_bind; [apply says_print|].
        eapply says_bind; [apply says_print|]. apply says_print.
      * reflexivity.
    + eapply says_eq.
      * eapply says_bind; [apply says_print|]. apply says_print.
      * reflexivity.
Qed.

Ltac says_tac :=
  cbv beta;
  lazymatch goal with
  | |- says _ (bind _ _) _ _ => eapply says_bind; [says_tac | says_tac]
  | |- says _ (print _) _ _ => apply says_print
  | |- says _ (ret _) _ _ => apply says_ret
  | |- says _ get_firebase_url _ _ => apply says_get_firebase_url
  | |- says _ (for_each _ report_entry _) _ _ => apply says_report_entries
  end.


(** *** The report *)

Lemma generate_report_says (url : string) (rr : Dict.t read_entry) (wr : write_result) :
  says url (generate_report rr wr) (any_accessible rr || get_writable wr)
       (report_head url rr ++ [write_verdict wr] ++ report_tail rr wr).
Proof.
  unfold generate_report, report_head, report_tail.
  destruct (any_accessible rr), (any_has_data rr);
    destruct wr as [| st [|] sn | [| c err]];
    cbn [get_writable get_error_truthy PyStr.truthy orb write_verdict];
    (eapply says_eq; [says_tac | cbn [app]; rewrite ?app_nil_r; reflexivity]).
Qed.

Lemma generate_report_run (rr : Dict.t read_entry) (wr : write_result) (s : state) :
  generate_report rr wr s =
  (Ok (any_accessible rr || get_writable wr),
   put_lines s (report_head (self_firebase_url s) rr
                ++ [write_verdict wr] ++ report_tail rr wr)).
Proof. now apply generate_report_says. Qed.


Ltac no_verdict :=
  repeat (apply Forall_cons; [reflexivity |]); try apply Forall_nil.

Lemma Forall_app_intro {A} (P : A -> Prop) (l1 l2 : list A) :
  Forall P l1 -> Forall P l2 -> Forall P (l1 ++ l2).
Proof. intros H1 H2. apply Forall_app. now split. Qed.





(** *** The read probes *)

Lemma advance_advance (s : state) (t1 t2 : list event) (l1 l2 : list string) :
  advance (advance s t1 l1) t2 l2 = advance s (t1 ++ t2) (l1 ++ l2).
Proof. unfold advance. simpl. now rewrite !app_assoc. Qed.

Lemma advance_nil (s : state) : advance s [] [] = s.
Proof. destruct s. unfold advance. simpl. now rewrite !app_nil_r. Qed.

Lemma probe_endpoint_run (endpoint : string) (results : Dict.t read_entry) (s : state) :
  let rq := read_request (self_firebase_url s) endpoint in
  let out := net (trace s) rq in
  probe_endpoint endpoint results s =
  (match out with
   | Ok _ => Ok (Dict.set results endpoint (entry_of out))
   | Raise e =>
       if is_Exception e then Ok (Dict.set results endpoint (entry_of out))
       else Raise e
   end,
   advance s [(rq, out)] (probe_lines (self_firebase_url s ++ endpoint) out)).
Proof.
  cbv zeta. unfold probe_endpoint, read_request, advance, probe_lines.
  unfold_py. cbn [self_firebase_url trace stdout clock_reads].
  destruct (net (trace s) _) as [r | []];
    cbn [self_firebase_url trace stdout clock_reads is_Exception entry_of];
    rewrite <- ?app_assoc; reflexivity.
Qed.


Lemma probe_lines_no_verdict (url : string) (out : result response) :
  Forall (fun l => is_write_verdict l = false) (probe_lines url out).
Proof.
  unfold probe_lines. destruct out as [r | []]; no_verdict.
Qed.

Lemma read_loop (endpoints : list string) :
  forall (results : Dict.t read_entry) (s : state),
  exists tr lines r,
    for_each endpoints probe_endpoint results s = (r, advance s tr lines) /\
    Forall (fun l => is_write_verdict l = false) lines /\
    (exists rest,
        (map fst tr ++ rest)%list
        = map (read_request (self_firebase_url s)) endpoints) /\
    match r with
    | Ok rr =>
        map fst tr = map (read_request (self_firebase_url s)) endpoints /\
        rr = store_entries results endpoints tr /\
        Forall (fun ev => handled (snd ev) = true) tr
    | Raise e =>
        is_Exception e = false /\ exists rq, In (rq, Raise e) tr
    end.
Proof.
  induction endpoints as [| ep rest IH]; intros results s.
  - exists [], [], (Ok results). cbn [for_each]. unfold ret.
    rewrite advance_nil. repeat split; auto. now exists [].
  - cbn [for_each]. unfold bind at 1. rewrite probe_endpoint_run.
    set (rq := read_request (self_firebase_url s) ep).
    set (out := net (trace s) rq).
    set (pl := probe_lines (self_firebase_url s ++ ep) out).
    assert (Hpl : Forall (fun l => is_write_verdict l = false) pl)
      by apply probe_lines_no_verdict.
    assert (Hcont :
        handled out = true ->
        exists tr lines r,
          for_each rest probe_endpoint
                   (Dict.set results ep (entry_of out)) (advance s [(rq, out)] pl)
          = (r, advance s tr lines) /\
          Forall (fun l => is_write_verdict l = false) lines /\
          (exists rest0,
              (map fst tr ++ rest0)%list
              = map (read_request (self_firebase_url s)) (ep :: rest)) /\
          match r with
          | Ok rr =>
              map fst tr = map (read_request (self_firebase_url s)) (ep :: rest) /\
              rr = store_entries results (ep :: rest) tr /\
              Forall (fun ev => handled (snd ev) = true) tr
          | Raise e =>
              is_Exception e = false /\ exists rq, In (rq, Raise e) tr
          end).
    { intros Hh.
      destruct (IH (Dict.set results ep (entry_of out)) (advance s [(rq, out)] pl))
        as (tr & lines & r & Hrun & Hlines & (rest0 & Hpre) & Hr).
      exists ((rq, out) :: tr), (pl ++ lines)%list, r.
      rewrite Hrun, advance_advance. cbn [app].
      split; [reflexivity|]. split; [now apply Forall_app_intro|].
      cbn [advance self_firebase_url] in Hpre, Hr.
      split.
      - exists rest0. cbn [map fst app]. now rewrite Hpre.
      - destruct r as [rr | e].
        + destruct Hr as (Hm & Hrr & Hall). repeat split.
          * cbn [map fst]. now rewrite Hm.
          * exact Hrr.
          * constructor; assumption.
        + destruct Hr as (He & rq' & Hin). split; [assumption|].
          exists rq'. now right. }
    destruct out as [resp | e] eqn:Eout.
    + apply Hcont. reflexivity.
    + destruct (is_Exception e) eqn:Ee.
      * apply Hcont. exact Ee.
      * exists [(rq, Raise e)], pl, (Raise e).
        split; [reflexivity|]. split; [assumption|]. split.
        -- exists (map (read_request (self_firebase_url s)) rest). reflexivity.
        -- split; [assumption|]. exists rq. now left.
Qed.


(** *** The write probe *)

Lemma extends_advance (s : state) (tr : list event) (lines : list string) :
  extends s (advance s tr lines) tr lines.
Proof. now repeat split. Qed.

Lemma extends_trans (s s1 s2 : state) (t1 t2 : list event) (l1 l2 : list string) :
  extends s s1 t1 l1 -> extends s1 s2 t2 l2 ->
  extends s s2 (t1 ++ t2) (l1 ++ l2).
Proof.
  intros (U1 & T1 & O1) (U2 & T2 & O2). repeat split.
  - now rewrite U2.
  - now rewrite T2, T1, app_assoc.
  - now rewrite O2, O1, app_assoc.
Qed.

Lemma write_run (s : state) :
  let rq := write_request (self_firebase_url s)
                          (time_int (clock_reads s)) (time_int (S (clock_reads s))) in
  let out := net (trace s) rq in
  exists s' cleanup lines,
    check_public_write_access s = (write_result_of out, s') /\
    extends s s' ((rq, out) :: cleanup) lines /\
    Forall (fun l => is_write_verdict l = false) lines /\
    Forall (fun ev => req_method (fst ev) = DELETE) cleanup.
Proof.
  cbv zeta. unfold check_public_write_access, write_request, write_url.
  unfold_py. cbn [self_firebase_url trace stdout clock_reads].
  destruct (net (trace s) _) as [r | e] eqn:Eout.
  - cbn [write_result_of]. fold (status_writable r).
    destruct (status_writable r).
    + cbn [self_firebase_url trace stdout clock_reads].
      match goal with
      | |- context [net ?h ?dq] =>
          lazymatch dq with
          | mkRequest DELETE _ _ _ _ => destruct (net h dq) as [d | de] eqn:Edel
          end
      end.
      * eexists _, [_], [_; _]. split; [reflexivity|].
        cbn [extends self_firebase_url trace stdout].
        rewrite <- !app_assoc. repeat split; [no_verdict | now constructor].
      * eexists _, [_], [_; _]. split; [reflexivity|].
        cbn [extends self_firebase_url trace stdout].
        rewrite <- !app_assoc. repeat split; [no_verdict | now constructor].
    + eexists _, [], [_]. split; [reflexivity|].
      cbn [extends self_firebase_url trace stdout].
      repeat split; [no_verdict | constructor].
  - cbn [write_result_of]. destruct (is_Exception e).
    + eexists _, [], [_]. split; [reflexivity|].
      cbn [extends self_firebase_url trace stdout].
      repeat split; [no_verdict | constructor].
    + eexists _, [], [_]. split; [reflexivity|].
      cbn [extends self_firebase_url trace stdout].
      repeat split; [no_verdict | constructor].
Qed.


(** *** URL validation *)

Lemma normalize_url_run (raw : string) :
  normalize_url (mkState (PyStr.rstrip "/" raw) [] [] 0) = normalize_outcome raw.
Proof.
  unfold normalize_url, normalize_outcome, normalized, warning_lines.
  unfold bind at 1. unfold get_firebase_url at 1. cbn [self_firebase_url].
  destruct (PyStr.startswith (PyStr.rstrip "/" raw) "http");
    unfold_py; cbn [negb self_firebase_url trace stdout clock_reads];
    unfold ret; cbn [self_firebase_url trace stdout clock_reads];
    (destruct (urlparse_netloc _) as [netloc | e]; [| reflexivity]);
    destruct (PyStr.truthy netloc); cbn [negb]; try reflexivity;
    destruct (negb (PyStr.contains "firebaseio.com" netloc)
              && negb (PyStr.contains "firebasedatabase.app" netloc));
    reflexivity.
Qed.

Lemma init_run (raw : string) :
  init raw initial_state = (Ok tt, mkState (PyStr.rstrip "/" raw) [] [] 0).
Proof. reflexivity. Qed.


(** *** The whole run *)

Lemma run_after_probes (a : args)
      (r : result (Dict.t read_entry * write_result)) (s' : state) :
  run_probes a initial_state = (r, s') ->
  run a = (closing_code r, put_lines s' (closing_lines (self_firebase_url s') r)).
Proof.
  intros H. unfold run, main, main_try, try_except. unfold bind at 1. rewrite H.
  destruct r as [[rr wr] | e].
  - unfold bind at 1. cbn [fst snd]. rewrite generate_report_run.
    unfold sys_exit, raise. cbn [closing_code closing_lines exit_code_of].
    reflexivity.
  - destruct e; unfold_py; cbn [closing_code closing_lines exit_code_of str_exc];
      try reflexivity.
    now rewrite put_lines_nil.
Qed.


Lemma warning_lines_no_verdict (netloc : string) :
  Forall (fun l => is_write_verdict l = false) (warning_lines netloc).
Proof. unfold warning_lines. destruct (_ && _); no_verdict. Qed.

Lemma bind_print {A} (line : string) (k : unit -> M A) (s : state) :
  bind (print line) k s = k tt (put_lines s [line]).
Proof. reflexivity. Qed.

Lemma run_probes_shape (a : args) :
  exists r s',
    run_probes a initial_state = (r, s') /\
    self_firebase_url s' = normalized (arg_firebase_url a) /\
    Forall (fun l => is_write_verdict l = false) (stdout s') /\
    probes_shape a r (trace s').
Proof.
  unfold run_probes. unfold bind at 1. rewrite init_run.
  unfold bind at 1. rewrite normalize_url_run.
  destruct (normalize_outcome (arg_firebase_url a)) as [rn sn] eqn:En.
  assert (Hfst : fst (normalize_outcome (arg_firebase_url a)) = rn)
    by now rewrite En.
  unfold normalize_outcome in En.
  destruct (urlparse_netloc _) as [netloc | e] eqn:Eu;
    [destruct (PyStr.truthy netloc) eqn:Et |]; inversion En; subst rn sn; clear En.
  - rewrite !bind_print. unfold bind at 1. unfold check_public_read_access.
    match goal with
    | |- context [for_each test_endpoints probe_endpoint [] ?s2] =>
        destruct (read_loop test_endpoints [] s2)
          as (tr & lines & r & Hrun & Hlines & (rest & Hpre) & Hr);
        rewrite Hrun
    end.
    cbn [put_lines advance self_firebase_url trace stdout clock_reads app] in *.
    assert (Hout : Forall (fun l => is_write_verdict l = false)
                     (((warning_lines netloc
                        ++ [("🔍 Checking Firebase database: "
                              ++ normalized (arg_firebase_url a))%string])
                        ++ [(PyStr.nl ++ "📖 Testing read access...")%string])
                        ++ lines)%list).
    { repeat apply Forall_app_intro; auto using warning_lines_no_verdict; no_verdict. }
    destruct r as [rr | e].
    + destruct Hr as (Hm & Hrr & Hall). subst rr.
      destruct (arg_skip_write_test a) eqn:Eskip; cbn [negb].
      * unfold bind at 1. rewrite bind_print. unfold bind, ret.
        eexists _, _. split; [reflexivity|].
        cbn [put_lines self_firebase_url trace stdout].
        split; [reflexivity|]. split.
        -- apply Forall_app_intro; [exact Hout | no_verdict].
        -- now apply shape_skipped.
      * unfold bind at 1. rewrite bind_print.
        match goal with
        | |- context [check_public_write_access ?s3] =>
            destruct (write_run s3) as (s' & cleanup & wl & Hw & (Hu & Ht & Ho) & Hwl & Hdel);
            rewrite Hw
        end.
        cbn [put_lines self_firebase_url trace stdout clock_reads] in *.
        exists (match write_result_of (net tr (write_request
                    (normalized (arg_firebase_url a)) (time_int 0) (time_int 1))) with
                | Ok wr => Ok (store_entries [] test_endpoints tr, wr)
                | Raise e => Raise e
                end), s'.
        split; [| split; [exact Hu | split]].
        -- destruct (write_result_of _); reflexivity.
        -- rewrite Ho.
           apply Forall_app_intro;
             [apply Forall_app_intro; [exact Hout | no_verdict] | exact Hwl].
        -- rewrite Ht. now apply shape_written.
    + destruct Hr as (He & Hin).
      eexists _, _. split; [reflexivity|].
      cbn [self_firebase_url trace stdout].
      split; [reflexivity|]. split; [exact Hout|].
      now apply shape_interrupted with (rest := rest).
  - eexists _, _. split; [reflexivity|]. cbn [self_firebase_url trace stdout].
    repeat split; [constructor | now apply shape_invalid].
  - eexists _, _. split; [reflexivity|]. cbn [self_firebase_url trace stdout].
    repeat split; [constructor | now apply shape_invalid].
Qed.


Lemma run_summary (a : args) :
  exists r s',
    run_probes a initial_state = (r, s') /\
    self_firebase_url s' = normalized (arg_firebase_url a) /\
    Forall (fun l => is_write_verdict l = false) (stdout s') /\
    probes_shape a r (trace s') /\
    exit_code a = closing_code r /\
    requests_of a = trace s' /\
    output_of a
    = (stdout s' ++ closing_lines (normalized (arg_firebase_url a)) r)%list.
Proof.
  destruct (run_probes_shape a) as (r & s' & Hrun & Hurl & Hout & Hshape).
  exists r, s'. unfold exit_code, requests_of, output_of.
  rewrite (run_after_probes a r s' Hrun), Hurl.
  cbn [fst snd put_lines trace stdout]. auto 10.
Qed.


(** ** The specified behaviour *)



(** C1.  In every run that reaches the report, the flag
    [generate_report] returns is true exactly when some read entry records
    [accessible == True] or the write result records [writable == True],
    and the process exits with 1 when the flag is true and with 0 when it
    is false. *)
Theorem insecure_flag_and_exit_code
        (a : args) (rr : Dict.t read_entry) (wr : write_result) (s1 : state) :
  run_probes a initial_state = (Ok (rr, wr), s1) ->
  exists flag s2,
    generate_report rr wr s1 = (Ok flag, s2) /\
    (flag = true <->
     (exists endpoint e, In (endpoint, e) rr /\ recorded_accessible e)
     \/ recorded_writable wr) /\
    exit_code a = (if flag then 1 else 0).
Proof.
  intros Hrun.
  eexists (any_accessible rr || get_writable wr), _.
  split; [apply generate_report_run|]. split.
  - rewrite orb_true_iff, any_accessible_spec, get_writable_recorded. reflexivity.
  - unfold exit_code. now rewrite (run_after_probes a _ _ Hrun).
Qed.





Lemma read_requests_get (url : string) (rq : request) :
  In rq (read_requests url) -> req_method rq = GET.
Proof.
  unfold read_requests. rewrite in_map_iff. now intros (ep & <- & _).
Qed.

Lemma reads_are_gets (url : string) (reads : list event) (rest : list request) :
  (map fst reads ++ rest)%list = read_requests url ->
  Forall (fun ev => req_method (fst ev) = GET) reads.
Proof.
  intros H. apply Forall_forall. intros ev Hin.
  apply (read_requests_get url). rewrite <- H.
  apply in_or_app. left. now apply in_map.
Qed.

Lemma write_verdict_writable (w : write_result) :
  get_writable w = true -> write_verdict w = line_publicly_writable.
Proof. destruct w as [| st [|] sn | err]; simpl; congruence. Qed.

(** C2.  In every run whose PUT is answered with status 201 or 200, the
    write result records [writable == True], the output has a line with
    "PUBLICLY WRITABLE", and the process exits with code 1. *)
Theorem put_201_or_200_is_writable (a : args) (rq : request) (resp : response) :
  In (rq, Ok resp) (requests_of a) ->
  req_method rq = PUT ->
  status_code resp = 201 \/ status_code resp = 200 ->
  exists rr wr s1,
    run_probes a initial_state = (Ok (rr, wr), s1) /\
    recorded_writable wr /\
    (exists line,
        In line (output_of a) /\ PyStr.contains "PUBLICLY WRITABLE" line = true) /\
    exit_code a = 1.
Proof.
  intros Hin Hput Hst.
  destruct (run_summary a) as (r & s' & Hrun & _ & _ & Hshape & Hcode & Hreq & Hout).
  rewrite Hreq in Hin. rewrite Hcode, Hout. clear Hcode Hreq Hout.
  assert (Hget : forall reads,
             Forall (fun ev => req_method (fst ev) = GET) reads ->
             ~ In (rq, Ok resp) reads).
  { intros reads Hall Hc. rewrite Forall_forall in Hall.
    specialize (Hall _ Hc). cbn [fst] in Hall. congruence. }
  remember (trace s') as tr eqn:Etr. clear Etr.
  destruct Hshape as [e He | e reads rest He Hex Hpre | reads Hsk Hm Hh
                      | reads cleanup t1 t2 out Hsk Hm Hh Hdel].
  - contradiction.
  - exfalso. exact (Hget _ (reads_are_gets _ _ _ Hpre) Hin).
  - exfalso. refine (Hget _ (reads_are_gets _ _ [] _) Hin). rewrite app_nil_r; exact Hm.
  - apply in_app_or in Hin as [Hin | [Hin | Hin]].
    + exfalso. refine (Hget _ (reads_are_gets _ _ [] _) Hin). rewrite app_nil_r; exact Hm.
    + inversion Hin; subst out. cbn [write_result_of] in *.
      assert (Hw : status_writable resp = true).
      { unfold status_writable. destruct Hst as [-> | ->]; reflexivity. }
      rewrite Hw in *.
      eexists _, _, s'. split; [exact Hrun|]. split; [now eexists _, _|].
      cbn [closing_code closing_lines get_writable write_verdict].
      rewrite orb_true_r. split; [| reflexivity].
      exists line_publicly_writable. split; [| reflexivity].
      apply in_or_app. right. apply in_or_app. right. now left.
    + exfalso. rewrite Forall_forall in Hdel. specialize (Hdel _ Hin).
      cbn [fst] in Hdel. congruence.
Qed.


(** C9.  With [--skip-write-test], every request of the run is a GET, and
    the requests are the three read probes in order, or the first few of
    them when the run stops early (a rejected URL, an interrupt): no PUT
    and no DELETE is issued.  A run that reaches the report has issued
    exactly the three. *)
Theorem skip_write_test_only_gets (a : args) :
  arg_skip_write_test a = true ->
  Forall (fun ev => req_method (fst ev) = GET) (requests_of a)
  /\ (exists rest,
         (map fst (requests_of a) ++ rest)%list
         = read_requests (normalized (arg_firebase_url a)))
  /\ (forall rr wr s1,
         run_probes a initial_state = (Ok (rr, wr), s1) ->
         map fst (requests_of a) = read_requests (normalized (arg_firebase_url a))).
Proof.
  intros Hskip.
  destruct (run_summary a) as (r & s' & Hrun & _ & _ & Hshape & _ & Hreq & _).
  rewrite Hreq. clear Hreq.
  remember (trace s') as tr eqn:Etr. clear Etr.
  destruct Hshape as [e He | e reads rest He Hex Hpre | reads Hsk Hm Hh
                      | reads cleanup t1 t2 out Hsk Hm Hh Hdel].
  - split; [constructor|]. split; [now eexists|].
    intros rr wr s1 H. rewrite H in Hrun. discriminate.
  - split; [exact (reads_are_gets _ _ _ Hpre)|]. split; [now exists rest|].
    intros rr wr s1 H. rewrite H in Hrun. discriminate.
  - split; [refine (reads_are_gets _ _ [] _); rewrite app_nil_r; exact Hm|].
    split; [exists []; rewrite app_nil_r; exact Hm|]. intros; exact Hm.
  - congruence.
Qed.



(** *** Further facts about the run *)

(** [main] never reads [args.timeout]. *)
Lemma run_ignores_timeout (a : args) (t : Z) :
  run (mkArgs (arg_firebase_url a) (arg_skip_write_test a) t) = run a.
Proof. reflexivity. Qed.

(** Every GET and every PUT is issued with [timeout=10]. *)
Lemma probe_timeouts_are_10 (a : args) :
  Forall (fun ev => req_method (fst ev) <> DELETE -> req_timeout (fst ev) = 10)
         (requests_of a).
Proof.
  destruct (run_summary a) as (r & s' & _ & _ & _ & Hshape & _ & Hreq & _).
  rewrite Hreq. clear Hreq.
  assert (Hreads : forall (reads : list event) (rest : list request),
             (map fst reads ++ rest)%list
             = read_requests (normalized (arg_firebase_url a)) ->
             Forall (fun ev => req_method (fst ev) <> DELETE ->
                               req_timeout (fst ev) = 10) reads).
  { intros reads rest H. apply Forall_forall. intros ev Hin _.
    assert (Hi : In (fst ev) (read_requests (normalized (arg_firebase_url a)))).
    { rewrite <- H. apply in_or_app. left. now apply in_map. }
    unfold read_requests in Hi. apply in_map_iff in Hi as (ep & <- & _).
    reflexivity. }
  remember (trace s') as tr eqn:Etr. clear Etr.
  destruct Hshape as [e He | e reads rest He Hex Hpre | reads Hsk Hm Hh
                      | reads cleanup t1 t2 out Hsk Hm Hh Hdel].
  - constructor.
  - exact (Hreads _ _ Hpre).
  - apply (Hreads _ []). rewrite app_nil_r. exact Hm.
  - apply Forall_app_intro.
    + apply (Hreads _ []). rewrite app_nil_r. exact Hm.
    + constructor; [reflexivity|].
      apply Forall_forall. intros ev Hin Hne.
      rewrite Forall_forall in Hdel. now specialize (Hdel _ Hin).
Qed.

(** When the stripped argument does not start with "http" and the URL with
    [https://] in front has a host, [normalize_url] returns that URL. *)
Lemma normalize_url_prepends (raw netloc : string) :
  PyStr.startswith (PyStr.rstrip "/" raw) "http" = false ->
  urlparse_netloc ("https://" ++ PyStr.rstrip "/" raw) = Ok netloc ->
  PyStr.truthy netloc = true ->
  fst (normalize_url (mkState (PyStr.rstrip "/" raw) [] [] 0))
  = Ok ("https://" ++ PyStr.rstrip "/" raw).
Proof.
  intros Hp Hu Ht. rewrite normalize_url_run.
  unfold normalize_outcome, normalized. rewrite Hp, Hu, Ht. reflexivity.
Qed.

(** A PUT that fails with an instance of [Exception] gives the write result
    [{'error': str(e)}]; the report says "Could not test write access" when
    that string is not empty, and "Write access properly restricted" when
    it is empty. *)
Lemma put_failure_reported (a : args) (rq : request) (e : exc) :
  In (rq, Raise e) (requests_of a) ->
  req_method rq = PUT ->
  is_Exception e = true ->
  exists rr s1,
    run_probes a initial_state = (Ok (rr, WError (str_exc e)), s1) /\
    In (write_verdict (WError (str_exc e))) (output_of a).
Proof.
  intros Hin Hput He.
  destruct (run_summary a) as (r & s' & Hrun & _ & _ & Hshape & _ & Hreq & Hout).
  rewrite Hreq in Hin. rewrite Hout. clear Hreq Hout.
  assert (Hget : forall reads : list event,
             Forall (fun ev => req_method (fst ev) = GET) reads ->
             ~ In (rq, Raise e) reads).
  { intros reads Hall Hc. rewrite Forall_forall in Hall.
    specialize (Hall _ Hc). cbn [fst] in Hall. congruence. }
  remember (trace s') as tr eqn:Etr. clear Etr.
  destruct Hshape as [e0 He0 | e0 reads rest He0 Hex Hpre | reads Hsk Hm Hh
                      | reads cleanup t1 t2 out Hsk Hm Hh Hdel].
  - contradiction.
  - exfalso. exact (Hget _ (reads_are_gets _ _ _ Hpre) Hin).
  - exfalso. refine (Hget _ (reads_are_gets _ _ [] _) Hin).
    rewrite app_nil_r; exact Hm.
  - apply in_app_or in Hin as [Hin | [Hin | Hin]].
    + exfalso. refine (Hget _ (reads_are_gets _ _ [] _) Hin).
      rewrite app_nil_r; exact Hm.
    + inversion Hin; subst out. cbn [write_result_of] in *. rewrite He in *.
      eexists _, s'. split; [exact Hrun|].
      cbn [closing_lines].
      apply in_or_app. right. apply in_or_app. right. now left.
    + exfalso. rewrite Forall_forall in Hdel. specialize (Hdel _ Hin).
      cbn [fst] in Hdel. congruence.
Qed.


(** ** Further properties of the code *)

(** *** The run in detail *)

Lemma read_loop_exact (endpoints : list string) :
  forall (results : Dict.t read_entry) (s : state),
  exists tr lines r,
    for_each endpoints probe_endpoint results s = (r, advance s tr lines) /\
    Forall (fun ev => exists done, net (trace s ++ done) (fst ev) = snd ev) tr /\
    match r with
    | Ok rr =>
        map fst tr = map (read_request (self_firebase_url s)) endpoints /\
        rr = store_entries results endpoints tr /\
        Forall (fun ev => handled (snd ev) = true) tr
    | Raise e =>
        is_Exception e = false /\
        exists done rq rest,
          tr = (done ++ [(rq, Raise e)])%list /\
          Forall (fun ev => handled (snd ev) = true) done /\
          (map fst done ++ rq :: rest)%list
          = map (read_request (self_firebase_url s)) endpoints
    end.
Proof.
  induction endpoints as [| ep rest IH]; intros results s.
  - exists [], [], (Ok results). cbn [for_each]. unfold ret.
    rewrite advance_nil. repeat split; auto.
  - cbn [for_each]. unfold bind at 1. rewrite probe_endpoint_run.
    set (rq := read_request (self_firebase_url s) ep).
    set (out := net (trace s) rq).
    set (pl := probe_lines (self_firebase_url s ++ ep) out).
    assert (Hnet : exists done, net (trace s ++ done) rq = out)
      by (exists []; now rewrite app_nil_r).
    assert (Hcont :
        handled out = true ->
        exists tr lines r,
          for_each rest probe_endpoint
                   (Dict.set results ep (entry_of out)) (advance s [(rq, out)] pl)
          = (r, advance s tr lines) /\
          Forall (fun ev => exists done, net (trace s ++ done) (fst ev) = snd ev) tr /\
          match r with
          | Ok rr =>
              map fst tr = map (read_request (self_firebase_url s)) (ep :: rest) /\
              rr = store_entries results (ep :: rest) tr /\
              Forall (fun ev => handled (snd ev) = true) tr
          | Raise e =>
              is_Exception e = false /\
              exists done rq0 rest0,
                tr = (done ++ [(rq0, Raise e)])%list /\
                Forall (fun ev => handled (snd ev) = true) done /\
                (map fst done ++ rq0 :: rest0)%list
                = map (read_request (self_firebase_url s)) (ep :: rest)
          end).
    { intros Hh.
      destruct (IH (Dict.set results ep (entry_of out)) (advance s [(rq, out)] pl))
        as (tr & lines & r & Hrun & Hfrom & Hr).
      exists ((rq, out) :: tr), (pl ++ lines)%list, r.
      rewrite Hrun, advance_advance. cbn [app].
      split; [reflexivity|].
      cbn [advance self_firebase_url trace] in Hfrom, Hr.
      split.
      - constructor; [exact Hnet|].
        rewrite Forall_forall in *. intros ev Hin.
        destruct (Hfrom ev Hin) as (done & Hd).
        exists ((rq, out) :: done). rewrite <- Hd.
        now rewrite <- app_assoc.
      - destruct r as [rr | e].
        + destruct Hr as (Hm & Hrr & Hall). repeat split.
          * cbn [map fst]. now rewrite Hm.
          * exact Hrr.
          * constructor; assumption.
        + destruct Hr as (He & done & rq0 & rest0 & Htr & Hdone & Hpre).
          split; [assumption|].
          exists ((rq, out) :: done), rq0, rest0. subst tr. repeat split.
          * constructor; assumption.
          * cbn [map fst app]. now rewrite Hpre. }
    destruct out as [resp | e] eqn:Eout.
    + apply Hcont. reflexivity.
    + destruct (is_Exception e) eqn:Ee.
      * apply Hcont. exact Ee.
      * exists [(rq, Raise e)], pl, (Raise e).
        split; [reflexivity|]. split; [now constructor|].
        split; [assumption|].
        exists [], rq, (map (read_request (self_firebase_url s)) rest).
        repeat split. constructor.
Qed.

Lemma write_run_exact (s : state) :
  let rq := write_request (self_firebase_url s)
                          (time_int (clock_reads s)) (time_int (S (clock_reads s))) in
  let out := net (trace s) rq in
  exists s' cleanup lines,
    check_public_write_access s = (write_result_of out, s') /\
    extends s s' ((rq, out) :: cleanup) lines /\
    Forall (fun ev => exists done, net (trace s ++ done) (fst ev) = snd ev) cleanup /\
    (if put_succeeded out
     then exists dout,
         cleanup = [(delete_request (self_firebase_url s) (time_int (clock_reads s)),
                     dout)]
     else cleanup = []).
Proof.
  cbv zeta. unfold check_public_write_access, write_request, delete_request, write_url.
  unfold_py. cbn [self_firebase_url trace stdout clock_reads].
  destruct (net (trace s) _) as [r | e] eqn:Eout.
  - cbn [write_result_of put_succeeded]. fold (status_writable r).
    destruct (status_writable r).
    + cbn [self_firebase_url trace stdout clock_reads].
      match goal with
      | |- context [net ?h ?dq] =>
          lazymatch dq with
          | mkRequest DELETE _ _ _ _ => destruct (net h dq) as [d | de] eqn:Edel
          end
      end.
      * eexists _, [_], [_; _]. split; [reflexivity|].
        cbn [extends self_firebase_url trace stdout].
        rewrite <- !app_assoc. repeat split.
        -- constructor; [| constructor]. eexists [_]. cbn [fst snd]. exact Edel.
        -- now eexists.
      * eexists _, [_], [_; _]. split; [reflexivity|].
        cbn [extends self_firebase_url trace stdout].
        rewrite <- !app_assoc. repeat split.
        -- constructor; [| constructor]. eexists [_]. cbn [fst snd]. exact Edel.
        -- now eexists.
    + eexists _, [], [_]. split; [reflexivity|].
      cbn [extends self_firebase_url trace stdout]. repeat split. constructor.
  - cbn [write_result_of put_succeeded]. destruct (is_Exception e).
    + eexists _, [], [_]. split; [reflexivity|].
      cbn [extends self_firebase_url trace stdout]. repeat split. constructor.
    + eexists _, [], [_]. split; [reflexivity|].
      cbn [extends self_firebase_url trace stdout]. repeat split. constructor.
Qed.


Lemma run_probes_anatomy (a : args) :
  exists r s',
    run_probes a initial_state = (r, s') /\
    probes_anatomy a r (trace s') /\
    Forall from_net (trace s').
Proof.
  unfold run_probes. unfold bind at 1. rewrite init_run.
  unfold bind at 1. rewrite normalize_url_run.
  destruct (normalize_outcome (arg_firebase_url a)) as [rn sn] eqn:En.
  assert (Hfst : fst (normalize_outcome (arg_firebase_url a)) = rn)
    by now rewrite En.
  unfold normalize_outcome in En.
  destruct (urlparse_netloc _) as [netloc | e] eqn:Eu;
    [destruct (PyStr.truthy netloc) eqn:Et |]; inversion En; subst rn sn; clear En.
  - rewrite !bind_print. unfold bind at 1. unfold check_public_read_access.
    match goal with
    | |- context [for_each test_endpoints probe_endpoint [] ?s2] =>
        destruct (read_loop_exact test_endpoints [] s2)
          as (tr & lines & r & Hrun & Hfrom & Hr);
        rewrite Hrun
    end.
    cbn [put_lines advance self_firebase_url trace stdout clock_reads app] in *.
    destruct r as [rr | e].
    + destruct Hr as (Hm & Hrr & Hall). subst rr.
      destruct (arg_skip_write_test a) eqn:Eskip; cbn [negb].
      * unfold bind at 1. rewrite bind_print. unfold bind, ret.
        eexists _, _. split; [reflexivity|].
        cbn [put_lines self_firebase_url trace stdout].
        split; [now apply anatomy_skipped | exact Hfrom].
      * unfold bind at 1. rewrite bind_print.
        match goal with
        | |- context [check_public_write_access ?s3] =>
            destruct (write_run_exact s3)
              as (s' & cleanup & wl & Hw & (Hu & Ht & Ho) & Hcf & Hcl);
            rewrite Hw
        end.
        cbn [put_lines self_firebase_url trace stdout clock_reads] in *.
        exists (match write_result_of (net tr (write_request
                    (normalized (arg_firebase_url a)) (time_int 0) (time_int 1))) with
                | Ok wr => Ok (store_entries [] test_endpoints tr, wr)
                | Raise e => Raise e
                end), s'.
        split; [| split].
        -- destruct (write_result_of _); reflexivity.
        -- rewrite Ht. now apply anatomy_written.
        -- rewrite Ht. apply Forall_app_intro; [exact Hfrom|].
           constructor; [now exists tr |].
           eapply Forall_impl; [| exact Hcf].
           intros ev (done & Hd). now exists (tr ++ done)%list.
    + destruct Hr as (He & done & rq & rest & Htr & Hdone & Hpre). subst tr.
      eexists _, _. split; [reflexivity|].
      cbn [self_firebase_url trace stdout].
      split; [now apply anatomy_interrupted with (rest := rest) | exact Hfrom].
  - eexists _, _. split; [reflexivity|]. cbn [trace].
    split; [now apply anatomy_rejected | constructor].
  - eexists _, _. split; [reflexivity|]. cbn [trace].
    split; [now apply anatomy_rejected | constructor].
Qed.

Lemma run_anatomy (a : args) :
  exists r s',
    run_probes a initial_state = (r, s') /\
    probes_anatomy a r (requests_of a) /\
    Forall from_net (requests_of a) /\
    exit_code a = closing_code r /\
    exists before,
      output_of a
      = (before ++ closing_lines (normalized (arg_firebase_url a)) r)%list.
Proof.
  destruct (run_probes_anatomy a) as (r & s' & Hrun & Han & Hfrom).
  destruct (run_summary a) as (r0 & s0 & Hrun0 & _ & _ & _ & Hcode & Hreq & Hout).
  rewrite Hrun in Hrun0. inversion Hrun0; subst r0 s0.
  exists r, s'. rewrite Hreq. repeat split; try assumption.
  now exists (stdout s').
Qed.


(** *** What the recorded results say about the network *)

Lemma reads_three (url : string) (reads : list event) :
  map fst reads = read_requests url ->
  exists o1 o2 o3,
    reads = [(read_request url ".json", o1);
             (read_request url "/.json?shallow=true", o2);
             (read_request url "/test.json", o3)].
Proof.
  unfold read_requests, test_endpoints. cbn [map].
  destruct reads as [| [q1 o1] [| [q2 o2] [| [q3 o3] [| ev more]]]];
    cbn [map fst]; intros H; inversion H.
  now exists o1, o2, o3.
Qed.



Lemma reads_are_not_puts (url : string) (reads : list event) (ev : event) :
  map fst reads = read_requests url -> In ev reads -> req_method (fst ev) = GET.
Proof.
  intros Hm Hin.
  assert (H : Forall (fun ev => req_method (fst ev) = GET) reads).
  { apply (reads_are_gets url reads []). now rewrite app_nil_r. }
  rewrite Forall_forall in H. now apply H.
Qed.







Lemma handled_not_interrupt (l : list event) (rq : request) (e : exc) :
  Forall (fun ev => handled (snd ev) = true) l ->
  is_Exception e = false ->
  ~ In (rq, Raise e) l.
Proof.
  intros Hall He Hin. rewrite Forall_forall in Hall.
  specialize (Hall _ Hin). cbn [snd handled] in Hall. congruence.
Qed.

(** X3.  A KeyboardInterrupt raised while a GET or the PUT is in flight
    ends the run: that request is the last one issued, the last line
    printed is "Check cancelled by user", no report is made, and the exit
    code is 130. *)
Theorem interrupt_exits_130 (a : args) (rq : request) :
  In (rq, Raise KeyboardInterrupt) (requests_of a) ->
  req_method rq <> DELETE ->
  exit_code a = 130
  /\ (exists before, requests_of a = (before ++ [(rq, Raise KeyboardInterrupt)])%list)
  /\ (exists before, output_of a = (before ++ [line_cancelled])%list)
  /\ (forall rr wr s1, run_probes a initial_state <> (Ok (rr, wr), s1)).
Proof.
  intros Hin Hnd.
  destruct (run_anatomy a) as (r & s' & Hrun & Han & _ & Hcode & before & Hout).
  rewrite Hcode, Hout. clear Hcode Hout.
  remember (requests_of a) as tr eqn:Etr. clear Etr.
  destruct Han as [e He | e done rq0 rest He Hdone Hpre | reads Hsk Hm Hh
                   | reads cleanup out Hsk Hm Hh Hcl].
  - contradiction.
  - apply in_app_or in Hin as [Hin | [Hin | []]].
    + exfalso. exact (handled_not_interrupt done rq KeyboardInterrupt Hdone eq_refl Hin).
    + inversion Hin; subst rq0 e. cbn [closing_code closing_lines].
      split; [reflexivity|]. split; [now exists done|].
      split; [now exists before|]. intros rr wr s1 H. congruence.
  - exfalso. exact (handled_not_interrupt reads rq KeyboardInterrupt Hh eq_refl Hin).
  - apply in_app_or in Hin as [Hin | [Hin | Hin]].
    + exfalso. exact (handled_not_interrupt reads rq KeyboardInterrupt Hh eq_refl Hin).
    + inversion Hin; subst rq out.
      cbn [write_result_of is_Exception put_succeeded closing_code closing_lines] in *.
      subst cleanup. split; [reflexivity|]. split; [now exists reads|].
      split; [now exists before|]. intros rr wr s1 H. congruence.
    + exfalso. destruct (put_succeeded out); [| subst cleanup; contradiction].
      destruct Hcl as (dout & ->). destruct Hin as [Hin | []].
      inversion Hin; subst rq. now apply Hnd.
Qed.

(** X4.  A DELETE is only ever sent after the PUT was answered with 200 or
    201: it is the last request of the run, it goes to the URL that was
    written, with a timeout of 5 seconds, and whatever comes back for it,
    a response or any exception, an interrupt included, the run goes on
    to the report and exits with code 1. *)
Theorem delete_follows_accepted_put (a : args) (rq : request) (dout : result response) :
  In (rq, dout) (requests_of a) ->
  req_method rq = DELETE ->
  rq = delete_request (normalized (arg_firebase_url a)) (time_int 0)
  /\ (exists before resp,
         requests_of a
         = (before
            ++ [(write_request (normalized (arg_firebase_url a))
                               (time_int 0) (time_int 1), Ok resp);
                (rq, dout)])%list
         /\ (status_code resp = 200 \/ status_code resp = 201))
  /\ exit_code a = 1.
Proof.
  intros Hin Hdel.
  destruct (run_anatomy a) as (r & s' & Hrun & Han & _ & Hcode & _).
  rewrite Hcode. clear Hcode.
  assert (Hget : forall reads (rest : list request),
             (map fst reads ++ rest)%list
             = read_requests (normalized (arg_firebase_url a)) ->
             ~ In (rq, dout) reads).
  { intros reads rest Hpre Hc.
    pose proof (reads_are_gets _ _ _ Hpre) as Hall.
    rewrite Forall_forall in Hall. specialize (Hall _ Hc). cbn [fst] in Hall.
    congruence. }
  remember (requests_of a) as tr eqn:Etr. clear Etr.
  destruct Han as [e He | e done rq0 rest He Hdone Hpre | reads Hsk Hm Hh
                   | reads cleanup out Hsk Hm Hh Hcl].
  - contradiction.
  - exfalso. apply in_app_or in Hin as [Hin | [Hin | []]].
    + apply (Hget done (rq0 :: rest)); assumption.
    + inversion Hin; subst rq0.
      assert (Hi : In rq (read_requests (normalized (arg_firebase_url a)))).
      { rewrite <- Hpre. apply in_or_app. right. now left. }
      apply read_requests_get in Hi. congruence.
  - exfalso. apply (Hget reads []); [now rewrite app_nil_r | assumption].
  - apply in_app_or in Hin as [Hin | [Hin | Hin]].
    + exfalso. apply (Hget reads []); [now rewrite app_nil_r | assumption].
    + exfalso. inversion Hin; subst rq. discriminate.
    + destruct out as [resp | e]; cbn [put_succeeded] in Hcl;
        [destruct (status_writable resp) eqn:Ew |];
        try (subst cleanup; contradiction).
      destruct Hcl as (dout0 & ->). destruct Hin as [Hin | []].
      inversion Hin; subst rq dout0. cbn [write_result_of closing_code].
      rewrite Ew. cbn [get_writable]. rewrite orb_true_r.
      split; [reflexivity|]. split; [| reflexivity].
      exists reads, resp. split; [reflexivity|].
      unfold status_writable in Ew. rewrite orb_true_iff, !Z.eqb_eq in Ew. exact Ew.
Qed.

(** X5.  Every PUT that is answered with 200 or 201 is followed by the
    DELETE of the same URL, and nothing is issued after that DELETE. *)
Theorem accepted_put_is_cleaned_up (a : args) (rq : request) (resp : response) :
  In (rq, Ok resp) (requests_of a) ->
  req_method rq = PUT ->
  status_code resp = 200 \/ status_code resp = 201 ->
  exists before dout,
    requests_of a
    = (before ++ [(rq, Ok resp);
                  (mkRequest DELETE (req_url rq) 5 None user_agent, dout)])%list.
Proof.
  intros Hin Hput Hst.
  destruct (run_anatomy a) as (r & s' & Hrun & Han & _ & _ & _).
  remember (requests_of a) as tr eqn:Etr. clear Etr.
  assert (Hget : forall reads (rest : list request),
             (map fst reads ++ rest)%list
             = read_requests (normalized (arg_firebase_url a)) ->
             ~ In (rq, Ok resp) reads).
  { intros reads rest Hpre Hc.
    pose proof (reads_are_gets _ _ _ Hpre) as Hall.
    rewrite Forall_forall in Hall. specialize (Hall _ Hc). cbn [fst] in Hall.
    congruence. }
  destruct Han as [e He | e done rq0 rest He Hdone Hpre | reads Hsk Hm Hh
                   | reads cleanup out Hsk Hm Hh Hcl].
  - contradiction.
  - exfalso. apply in_app_or in Hin as [Hin | [Hin | []]].
    + apply (Hget done (rq0 :: rest)); assumption.
    + discriminate.
  - exfalso. apply (Hget reads []); [now rewrite app_nil_r | assumption].
  - apply in_app_or in Hin as [Hin | [Hin | Hin]].
    + exfalso. apply (Hget reads []); [now rewrite app_nil_r | assumption].
    + inversion Hin; subst rq out. cbn [put_succeeded] in Hcl.
      assert (Hw : status_writable resp = true).
      { unfold status_writable. rewrite orb_true_iff, !Z.eqb_eq. exact Hst. }
      rewrite Hw in Hcl. destruct Hcl as (dout & ->).
      exists reads, dout. reflexivity.
    + exfalso. destruct (put_succeeded out); [| subst cleanup; contradiction].
      destruct Hcl as (dout & ->). destruct Hin as [Hin | []].
      inversion Hin; subst rq. discriminate.
Qed.


Lemma startswith_app (base rest : string) :
  PyStr.startswith (base ++ rest) base = true.
Proof.
  induction base as [| c base IH]; [destruct rest; reflexivity|].
  cbn [append PyStr.startswith]. now rewrite Ascii.eqb_refl, IH.
Qed.

Lemma read_request_facts (url : string) (rq : request) :
  In rq (read_requests url) ->
  req_user_agent rq = "Firebase-Public-Checker/1.0"
  /\ PyStr.startswith (req_url rq) url = true.
Proof.
  unfold read_requests. rewrite in_map_iff. intros (ep & <- & _).
  split; [reflexivity | apply startswith_app].
Qed.

(** X6.  A run issues at most five requests, every one of them with the
    User-Agent [Firebase-Public-Checker/1.0] and with a URL that, as a
    string, starts with the normalized base URL. *)
Theorem at_most_five_requests_to_the_target (a : args) :
  (length (requests_of a) <= 5)%nat
  /\ Forall (fun ev =>
               req_user_agent (fst ev) = "Firebase-Public-Checker/1.0"
               /\ PyStr.startswith (req_url (fst ev))
                                   (normalized (arg_firebase_url a)) = true)
            (requests_of a).
Proof.
  destruct (run_anatomy a) as (r & s' & _ & Han & _ & _ & _).
  remember (requests_of a) as tr eqn:Etr. clear Etr.
  assert (Hreads : forall (reads : list event) (rest : list request),
             (map fst reads ++ rest)%list
             = read_requests (normalized (arg_firebase_url a)) ->
             (length reads + length rest = 3)%nat
             /\ Forall (fun ev =>
                          req_user_agent (fst ev) = "Firebase-Public-Checker/1.0"
                          /\ PyStr.startswith (req_url (fst ev))
                                              (normalized (arg_firebase_url a)) = true)
                       reads).
  { intros reads rest H. split.
    - apply (f_equal (@length request)) in H.
      rewrite length_app, length_map in H. exact H.
    - apply Forall_forall. intros ev Hin. apply read_request_facts.
      rewrite <- H. apply in_or_app. left. now apply in_map. }
  destruct Han as [e He | e done rq rest He Hdone Hpre | reads Hsk Hm Hh
                   | reads cleanup out Hsk Hm Hh Hcl].
  - split; [cbn; lia | constructor].
  - destruct (Hreads done (rq :: rest) Hpre) as (Hlen & Hall).
    cbn [length] in Hlen. split.
    + rewrite length_app. cbn [length]. lia.
    + apply Forall_app_intro; [exact Hall|]. constructor; [| constructor].
      cbn [fst]. apply read_request_facts. rewrite <- Hpre.
      apply in_or_app. right. now left.
  - destruct (Hreads reads []) as (Hlen & Hall); [now rewrite app_nil_r|].
    cbn [length] in Hlen. split; [lia | exact Hall].
  - destruct (Hreads reads []) as (Hlen & Hall); [now rewrite app_nil_r|].
    cbn [length] in Hlen.
    assert (Hc : (length cleanup <= 1)%nat
                 /\ Forall (fun ev =>
                              req_user_agent (fst ev) = "Firebase-Public-Checker/1.0"
                              /\ PyStr.startswith (req_url (fst ev))
                                   (normalized (arg_firebase_url a)) = true)
                           cleanup).
    { destruct (put_succeeded out).
      - destruct Hcl as (dout & ->). split; [cbn; lia|].
        constructor; [| constructor]. split; [reflexivity|].
        cbn [fst delete_request req_url]. apply startswith_app.
      - subst cleanup. split; [cbn; lia | constructor]. }
    destruct Hc as (Hclen & Hcall). split.
    + rewrite length_app. cbn [length]. lia.
    + apply Forall_app_intro; [exact Hall|]. constructor; [| exact Hcall].
      split; [reflexivity|]. cbn [fst write_request req_url]. apply startswith_app.
Qed.

(** X7.  When neither the parser nor the network raises [SystemExit], the
    exit code is one of 0, 1, 2 and 130, and it is 2 only when the URL was
    rejected before any request: an exception raised by a request, a
    [ValueError] included, never gives exit code 2. *)
Theorem exit_codes (a : args) :
  (forall u c, urlparse_netloc u <> Raise (SystemExit c)) ->
  (forall history rq c, net history rq <> Raise (SystemExit c)) ->
  (exit_code a = 0 \/ exit_code a = 1 \/ exit_code a = 2 \/ exit_code a = 130)
  /\ (exit_code a = 2 -> requests_of a = []).
Proof.
  intros Hparse Hnet.
  destruct (run_anatomy a) as (r & s' & _ & Han & Hfrom & Hcode & _).
  rewrite Hcode. clear Hcode.
  assert (Hbase : forall rq e,
             In (rq, Raise e) (requests_of a) -> is_Exception e = false ->
             e = KeyboardInterrupt).
  { intros rq e Hin He. rewrite Forall_forall in Hfrom.
    destruct (Hfrom _ Hin) as (history & Hh). cbn [fst snd] in Hh.
    destruct e; try discriminate; [reflexivity|].
    exfalso. exact (Hnet _ _ _ Hh). }
  remember (requests_of a) as tr eqn:Etr.
  destruct Han as [e He | e done rq rest He Hdone Hpre | reads Hsk Hm Hh
                   | reads cleanup out Hsk Hm Hh Hcl].
  - split; [| reflexivity].
    unfold normalize_outcome in He.
    destruct (urlparse_netloc _) as [netloc | e'] eqn:Eu;
      [destruct (PyStr.truthy netloc) |]; cbn [fst] in He; inversion He; subst.
    + cbn. auto.
    + destruct e; cbn [closing_code]; auto.
      exfalso. exact (Hparse _ _ Eu).
  - assert (e = KeyboardInterrupt) as ->.
    { apply (Hbase rq); [| exact He]. apply in_or_app. right. now left. }
    cbn [closing_code]. split; [auto | discriminate].
  - cbn [closing_code]. destruct (_ || _); split; auto; discriminate.
  - destruct out as [resp | e]; cbn [write_result_of closing_code].
    + destruct (_ || _); split; auto; discriminate.
    + destruct (is_Exception e) eqn:Ee; cbn [closing_code].
      * destruct (_ || _); split; auto; discriminate.
      * assert (e = KeyboardInterrupt) as ->.
        { apply (Hbase (write_request (normalized (arg_firebase_url a))
                                      (time_int 0) (time_int 1)));
            [| exact Ee]. apply in_or_app. right. now left. }
        split; [auto | discriminate].
Qed.


Lemma rstrip_slashes (n : nat) :
  PyStr.rstrip "/" (PyStr.replicate n "/") = EmptyString.
Proof.
  induction n as [| n IH]; [reflexivity|].
  cbn [PyStr.replicate PyStr.rstrip]. now rewrite IH.
Qed.

Lemma rstrip_app_slashes (s : string) (n : nat) :
  PyStr.rstrip "/" (s ++ PyStr.replicate n "/") = PyStr.rstrip "/" s.
Proof.
  induction s as [| c s IH].
  - cbn [append]. apply rstrip_slashes.
  - cbn [append PyStr.rstrip]. now rewrite IH.
Qed.

(** X8.  Slashes at the end of the URL argument do not matter: with any
    number of them added, the run issues the same requests, prints the
    same lines and exits with the same code. *)
Theorem trailing_slashes_are_ignored (a : args) (n : nat) :
  run (mkArgs (arg_firebase_url a ++ PyStr.replicate n "/")
              (arg_skip_write_test a) (arg_timeout a))
  = run a.
Proof.
  assert (H : run_probes (mkArgs (arg_firebase_url a ++ PyStr.replicate n "/")
                                 (arg_skip_write_test a) (arg_timeout a))
                         initial_state
              = run_probes a initial_state).
  { unfold run_probes. unfold bind at 1. symmetry. unfold bind at 1. symmetry.
    rewrite !init_run. cbn [arg_firebase_url arg_skip_write_test].
    now rewrite rstrip_app_slashes. }
  destruct (run_probes a initial_state) as [r s'] eqn:E.
  rewrite (run_after_probes a r s' E).
  now rewrite (run_after_probes _ r s' H).
Qed.



Lemma entry_data_accessible (out : result response) :
  has_data_of (entry_of out) <> None -> get_accessible (entry_of out) = true.
Proof.
  destruct out as [resp | e].
  - cbn [entry_of]. unfold probe_entry.
    destruct (status_code resp =? 200); cbn [andb].
    + destruct (PyStr.truthy (content resp)); [destruct (json resp) |]; reflexivity.
    + cbn [has_data_of]. congruence.
  - destruct e; cbn; congruence.
Qed.

(** X10.  In the results of a run, only an entry of a GET answered with
    200 carries the [has_data] key: every entry that records data also
    records [accessible == True], so data exposure is never reported
    without read exposure. *)
Theorem data_is_recorded_only_when_accessible
        (a : args) (rr : Dict.t read_entry) (wr : write_result) (s1 : state) :
  run_probes a initial_state = (Ok (rr, wr), s1) ->
  (forall endpoint e,
      In (endpoint, e) rr -> has_data_of e <> None -> get_accessible e = true)
  /\ (any_has_data rr = true -> any_accessible rr = true).
Proof.
  intros Hrun1.
  destruct (run_anatomy a) as (r & s' & Hrun & Han & _ & _ & _).
  rewrite Hrun1 in Hrun. inversion Hrun; subst r s'. clear Hrun.
  assert (Hrr : exists o1 o2 o3,
             rr = [(".json", entry_of o1); ("/.json?shallow=true", entry_of o2);
                   ("/test.json", entry_of o3)]).
  { remember (requests_of a) as tr eqn:Etr. clear Etr.
    remember (Ok (rr, wr)) as r eqn:Er.
    destruct Han as [e He | e done rq rest He Hdone Hpre | reads Hsk Hm Hh
                     | reads cleanup out Hsk Hm Hh Hcl]; try discriminate.
    - inversion Er. destruct (reads_three _ _ Hm) as (o1 & o2 & o3 & ->).
      now exists o1, o2, o3.
    - destruct (write_result_of out); inversion Er.
      destruct (reads_three _ _ Hm) as (o1 & o2 & o3 & ->).
      now exists o1, o2, o3. }
  destruct Hrr as (o1 & o2 & o3 & ->).
  assert (Hper : forall endpoint e,
             In (endpoint, e)
                [(".json", entry_of o1); ("/.json?shallow=true", entry_of o2);
                 ("/test.json", entry_of o3)] ->
             has_data_of e <> None -> get_accessible e = true).
  { intros endpoint e [H | [H | [H | []]]] Hd; inversion H; subst;
      now apply entry_data_accessible. }
  split; [exact Hper|].
  unfold any_has_data, any_accessible. rewrite !existsb_exists.
  intros (e & Hin & Hd). exists e. split; [exact Hin|].
  unfold Dict.values in Hin. apply in_map_iff in Hin as ([ep e'] & <- & Hin).
  apply (Hper ep e' Hin). cbn [snd] in Hd.
  destruct e' as [st acc sz ct [h |] dt | err]; cbn in *; congruence.
Qed.

Lemma failed_put_is_last (a : args) (rq : request) (e : exc) :
  In (rq, Raise e) (requests_of a) ->
  req_method rq = PUT ->
  exists reads,
    requests_of a = (reads ++ [(rq, Raise e)])%list
    /\ map fst reads = read_requests (normalized (arg_firebase_url a)).
Proof.
  intros Hin Hput.
  destruct (run_anatomy a) as (r & s' & _ & Han & _ & _ & _).
  remember (requests_of a) as tr eqn:Etr. clear Etr.
  assert (Hget : forall (reads : list event) (rest : list request),
             (map fst reads ++ rest)%list
             = read_requests (normalized (arg_firebase_url a)) ->
             ~ In (rq, Raise e) reads).
  { intros reads rest Hpre Hc.
    pose proof (reads_are_gets _ _ _ Hpre) as Hall.
    rewrite Forall_forall in Hall. specialize (Hall _ Hc). cbn [fst] in Hall.
    congruence. }
  destruct Han as [e0 He | e0 done rq0 rest He Hdone Hpre | reads Hsk Hm Hh
                   | reads cleanup out Hsk Hm Hh Hcl].
  - contradiction.
  - exfalso. apply in_app_or in Hin as [Hin | [Hin | []]].
    + apply (Hget done (rq0 :: rest)); assumption.
    + inversion Hin; subst rq0.
      assert (Hi : In rq (read_requests (normalized (arg_firebase_url a)))).
      { rewrite <- Hpre. apply in_or_app. right. now left. }
      apply read_requests_get in Hi. congruence.
  - exfalso. apply (Hget reads []); [now rewrite app_nil_r | assumption].
  - apply in_app_or in Hin as [Hin | [Hin | Hin]].
    + exfalso. apply (Hget reads []); [now rewrite app_nil_r | assumption].
    + inversion Hin; subst rq out. cbn [put_succeeded] in Hcl. subst cleanup.
      now exists reads.
    + exfalso. destruct (put_succeeded out); [| subst cleanup; contradiction].
      destruct Hcl as (dout & ->). destruct Hin as [Hin | []].
      inversion Hin; subst rq. discriminate.
Qed.

(** X11.  When the PUT fails with an instance of [Exception] whose message
    is not empty, no DELETE is sent, the report prints "Could not test
    write access" with that message, and the exit code is decided by the
    read probes alone. *)
Theorem put_failure_with_message_is_reported (a : args) (rq : request) (e : exc) :
  In (rq, Raise e) (requests_of a) ->
  req_method rq = PUT ->
  is_Exception e = true ->
  str_exc e <> EmptyString ->
  exists rr s1,
    run_probes a initial_state = (Ok (rr, WError (str_exc e)), s1)
    /\ In ("⚠️  Could not test write access: " ++ str_exc e) (output_of a)
    /\ exit_code a = (if any_accessible rr then 1 else 0)
    /\ Forall (fun ev => req_method (fst ev) <> DELETE) (requests_of a).
Proof.
  intros Hin Hput He Hmsg.
  destruct (put_failure_reported a rq e Hin Hput He) as (rr & s1 & Hrun1 & Hline).
  exists rr, s1. split; [exact Hrun1|]. split.
  - destruct (str_exc e) as [| c m]; [congruence | exact Hline].
  - split.
    + unfold exit_code. rewrite (run_after_probes a _ _ Hrun1).
      cbn [fst closing_code get_writable]. now rewrite orb_false_r.
    + destruct (failed_put_is_last a rq e Hin Hput) as (reads & -> & Hm).
      apply Forall_app_intro.
      * apply Forall_forall. intros ev Hev.
        rewrite (reads_are_not_puts _ _ _ Hm Hev). discriminate.
      * constructor; [| constructor]. cbn [fst]. rewrite Hput. discriminate.
Qed.


(** X12.  The report of a run ends with the detailed results of exactly
    the three endpoints, in the order they were probed; an endpoint whose
    request failed is listed too, with its error. *)
Theorem report_lists_the_three_endpoints
        (a : args) (rr : Dict.t read_entry) (wr : write_result) (s1 : state) :
  run_probes a initial_state = (Ok (rr, wr), s1) ->
  Dict.keys rr = test_endpoints
  /\ exists before,
      output_of a
      = (before ++ (PyStr.nl ++ "📊 DETAILED RESULTS:")%string
                :: flat_map detail_lines rr)%list.
Proof.
  intros Hrun1.
  destruct (run_anatomy a) as (r & s' & Hrun & Han & _ & _ & before & Hout).
  rewrite Hrun1 in Hrun. inversion Hrun; subst r s'. clear Hrun.
  split.
  - remember (requests_of a) as tr eqn:Etr. clear Etr.
    remember (Ok (rr, wr)) as r eqn:Er.
    destruct Han as [e He | e done rq rest He Hdone Hpre | reads Hsk Hm Hh
                     | reads cleanup out Hsk Hm Hh Hcl]; try discriminate.
    + inversion Er. destruct (reads_three _ _ Hm) as (o1 & o2 & o3 & ->).
      reflexivity.
    + destruct (write_result_of out); inversion Er.
      destruct (reads_three _ _ Hm) as (o1 & o2 & o3 & ->). reflexivity.
  - rewrite Hout. cbn [closing_lines]. unfold report_tail.
    eexists. rewrite !app_assoc. rewrite <- app_assoc. reflexivity.
Qed.



(** *** The lines printed so far never influence the run *)

Lemma for_each_blind (endpoints : list string) :
  forall (results : Dict.t read_entry) (s : state),
  exists r tr lines,
    forall l,
      for_each endpoints probe_endpoint results (with_stdout s l)
      = (r, advance (with_stdout s l) tr lines).
Proof.
  induction endpoints as [| ep rest IH]; intros results s.
  - exists (Ok results), [], []. intros l. cbn [for_each]. unfold ret.
    now rewrite advance_nil.
  - set (rq := read_request (self_firebase_url s) ep).
    set (out := net (trace s) rq).
    set (pl := probe_lines (self_firebase_url s ++ ep) out).
    destruct (IH (Dict.set results ep (entry_of out)) (advance s [(rq, out)] []))
      as (r & tr & lines & Hrest).
    destruct (handled out) eqn:Eh.
    + exists r, ((rq, out) :: tr), (pl ++ lines)%list. intros l.
      cbn [for_each]. unfold bind at 1. rewrite probe_endpoint_run.
      cbn [with_stdout self_firebase_url trace]. fold rq. fold out. fold pl.
      replace (match out with
               | Ok _ => Ok (Dict.set results ep (entry_of out))
               | Raise e =>
                   if is_Exception e then Ok (Dict.set results ep (entry_of out))
                   else Raise e
               end) with (@Ok (Dict.t read_entry) (Dict.set results ep (entry_of out))).
      * specialize (Hrest (l ++ pl)%list).
        unfold advance, with_stdout in *.
        cbn [self_firebase_url trace stdout clock_reads] in *.
        rewrite Hrest. now rewrite <- !app_assoc.
      * destruct out as [resp | e]; [reflexivity|].
        cbn [handled] in Eh. now rewrite Eh.
    + exists (match out with Ok _ => Ok results | Raise e => Raise e end),
             [(rq, out)], pl.
      intros l. cbn [for_each]. unfold bind at 1. rewrite probe_endpoint_run.
      cbn [with_stdout self_firebase_url trace]. fold rq. fold out. fold pl.
      destruct out as [resp | e]; [discriminate|].
      cbn [handled] in Eh. now rewrite Eh.
Qed.

Lemma write_blind (s : state) :
  exists r s' lines,
    forall l,
      check_public_write_access (with_stdout s l)
      = (r, with_stdout s' (l ++ lines)).
Proof.
  unfold check_public_write_access, with_stdout.
  unfold_py. cbn [self_firebase_url trace stdout clock_reads].
  destruct (net (trace s) _) as [resp | e] eqn:Eout.
  - destruct ((status_code resp =? 200) || (status_code resp =? 201)).
    + cbn [self_firebase_url trace stdout clock_reads].
      match goal with
      | |- context [net ?h ?dq] =>
          lazymatch dq with
          | mkRequest DELETE _ _ _ _ => destruct (net h dq) as [d | de] eqn:Edel
          end
      end.
      * eexists _, (mkState _ _ [] _), [_; _]. intros l.
        cbn [self_firebase_url trace stdout clock_reads].
        rewrite <- !app_assoc. reflexivity.
      * eexists _, (mkState _ _ [] _), [_; _]. intros l.
        cbn [self_firebase_url trace stdout clock_reads].
        rewrite <- !app_assoc. reflexivity.
    + eexists _, (mkState _ _ [] _), [_]. intros l. reflexivity.
  - destruct (is_Exception e).
    + eexists _, (mkState _ _ [] _), [_]. intros l. reflexivity.
    + eexists _, (mkState _ _ [] _), [_]. intros l. reflexivity.
Qed.

Lemma probes_after_normalize_blind (a : args) (s : state) :
  exists r s' lines,
    forall l,
      probes_after_normalize a (with_stdout s l)
      = (r, with_stdout s' (l ++ lines)).
Proof.
  unfold probes_after_normalize, check_public_read_access.
  destruct (for_each_blind test_endpoints [] s) as (r & tr & rl & Hread).
  destruct r as [rr | e].
  - destruct (arg_skip_write_test a); cbn [negb].
    + eexists _, (advance s tr []), (_ :: rl ++ [_])%list. intros l.
      rewrite bind_print. unfold bind at 1.
      change (put_lines (with_stdout s l) ?x) with (with_stdout s (l ++ x)).
      rewrite Hread. unfold bind at 1. rewrite bind_print. unfold ret.
      unfold advance, put_lines, with_stdout.
      cbn [self_firebase_url trace stdout clock_reads].
      rewrite <- !app_assoc. reflexivity.
    + destruct (write_blind (advance s tr [])) as (wr & s' & wl & Hwrite).
      eexists (match wr with Ok w => Ok (rr, w) | Raise e => Raise e end),
              s', (_ :: rl ++ _ :: wl)%list.
      intros l.
      rewrite bind_print. unfold bind at 1.
      change (put_lines (with_stdout s l) ?x) with (with_stdout s (l ++ x)).
      rewrite Hread. unfold bind at 1. rewrite bind_print.
      change (put_lines (advance (with_stdout s ?l0) tr rl) ?x)
        with (with_stdout (advance s tr []) ((l0 ++ rl) ++ x)).
      rewrite Hwrite.
      destruct wr as [w | e]; unfold ret; rewrite <- !app_assoc; reflexivity.
  - eexists (Raise e), (advance s tr []), (_ :: rl)%list. intros l.
    rewrite bind_print. unfold bind at 1.
    change (put_lines (with_stdout s l) ?x) with (with_stdout s (l ++ x)).
    rewrite Hread. unfold advance, with_stdout.
    cbn [self_firebase_url trace stdout clock_reads].
    rewrite <- !app_assoc. reflexivity.
Qed.

Lemma run_probes_accepted (a : args) (netloc : string) :
  urlparse_netloc (normalized (arg_firebase_url a)) = Ok netloc ->
  PyStr.truthy netloc = true ->
  run_probes a initial_state
  = probes_after_normalize a
      (with_stdout (after_init a)
                   (warning_lines netloc
                    ++ [("🔍 Checking Firebase database: "
                           ++ normalized (arg_firebase_url a))%string])).
Proof.
  intros Hu Ht. unfold run_probes. unfold bind at 1. rewrite init_run.
  unfold bind at 1. rewrite normalize_url_run.
  unfold normalize_outcome. rewrite Hu, Ht. rewrite bind_print. reflexivity.
Qed.

(** What the run is once the URL is accepted, from what the probing part
    does whatever was printed before it. *)
Lemma run_accepted_with (a : args)
      (r : result (Dict.t read_entry * write_result)) (s' : state)
      (lines : list string) (netloc : string) :
  (forall l,
      probes_after_normalize a (with_stdout (after_init a) l)
      = (r, with_stdout s' (l ++ lines))) ->
  urlparse_netloc (normalized (arg_firebase_url a)) = Ok netloc ->
  PyStr.truthy netloc = true ->
  exit_code a = closing_code r
  /\ requests_of a = trace s'
  /\ output_of a
     = (warning_lines netloc
        ++ (("🔍 Checking Firebase database: "
               ++ normalized (arg_firebase_url a))%string :: lines)
        ++ closing_lines (self_firebase_url s') r)%list.
Proof.
  intros Hb Hu Ht.
  pose proof (run_probes_accepted a netloc Hu Ht) as Hrun.
  rewrite Hb in Hrun.
  unfold exit_code, requests_of, output_of.
  rewrite (run_after_probes a _ _ Hrun).
  cbn [fst snd put_lines with_stdout self_firebase_url trace stdout].
  repeat split. now rewrite <- !app_assoc.
Qed.

End Checker.

(** ** The program on concrete inputs *)

(** C3 (evaluation at the failing input).  The argument
    [httpbin.firebaseio.com] has no scheme, but it starts with the letters
    "http": the script puts no [https://] in front of it, the string parses
    without a host, and the run ends with "Invalid URL" and exit code 2
    before any request.  With [https://] in front the same string parses
    with the host [httpbin.firebaseio.com].  Whatever the parser, the
    normalizer never returns the [https://] URL for this argument. *)
Theorem http_prefixed_host_is_rejected :
  UrlParse.urlsplit_netloc "https://httpbin.firebaseio.com"
  = Ok "httpbin.firebaseio.com"
  /\ (forall net time_int,
         run Runs.parse net time_int (mkArgs "httpbin.firebaseio.com" false 10)
         = (2, mkState "httpbin.firebaseio.com" []
                       ["❌ Invalid URL: Invalid Firebase URL format"] 0))
  /\ (forall parser,
         fst (normalize_url parser (mkState "httpbin.firebaseio.com" [] [] 0))
         <> Ok "https://httpbin.firebaseio.com").
Proof.
  split; [reflexivity|]. split.
  - intros net time_int. reflexivity.
  - intros parser.
    change (mkState "httpbin.firebaseio.com" [] [] 0)
      with (mkState (PyStr.rstrip "/" "httpbin.firebaseio.com") [] [] 0).
    rewrite normalize_url_run. unfold normalize_outcome.
    change (normalized "httpbin.firebaseio.com") with "httpbin.firebaseio.com".
    destruct (parser "httpbin.firebaseio.com") as [netloc | e];
      [destruct (PyStr.truthy netloc) |]; cbn [fst]; discriminate.
Qed.

(** C4 (evaluation at the failing input).  The run does not depend on
    [--timeout] at all; with [--timeout 3] the three GETs and the PUT are
    still issued with [timeout=10]. *)
Theorem timeout_flag_is_ignored :
  (forall parser net time_int a t,
      run parser net time_int
          (mkArgs (arg_firebase_url a) (arg_skip_write_test a) t)
      = run parser net time_int a)
  /\ Runs.methods_and_timeouts
       (requests_of Runs.parse Servers.locked Servers.clock (Runs.demo false 3))
     = [(GET, 10); (GET, 10); (GET, 10); (PUT, 10)].
Proof.
  split; [intros; apply run_ignores_timeout | vm_compute; reflexivity].
Qed.


(** C8 (evaluation at the failing input).  When the PUT raises an
    exception whose message is empty, the write result is [{'error': ''}],
    and the report prints "Write access properly restricted" and no "Could
    not test write access" line. *)
Theorem silent_put_failure_reads_as_restricted :
  fst (run_probes Runs.parse (Servers.put_fails (ConnectionError EmptyString))
                  Servers.clock (Runs.demo false 10) initial_state)
  = Ok ([(".json", Probe 401 false 6 "application/json; charset=utf-8" None None);
         ("/.json?shallow=true",
          Probe 401 false 6 "application/json; charset=utf-8" None None);
         ("/test.json", Probe 401 false 6 "application/json; charset=utf-8" None None)],
        WError EmptyString)
  /\ In line_write_restricted
        (output_of Runs.parse (Servers.put_fails (ConnectionError EmptyString))
                   Servers.clock (Runs.demo false 10))
  /\ existsb is_could_not_test
        (output_of Runs.parse (Servers.put_fails (ConnectionError EmptyString))
                   Servers.clock (Runs.demo false 10))
     = false
  /\ exit_code Runs.parse (Servers.put_fails (ConnectionError EmptyString))
               Servers.clock (Runs.demo false 10)
     = 0.
Proof.
  split; [vm_compute; reflexivity|]. split; [| split; vm_compute; reflexivity].
  vm_compute. do 14 right. now left.
Qed.

(** *** Instances of the theorems that have hypotheses *)


Lemma insecure_flag_and_exit_code_witness :
  exists rr wr s1 flag s2,
    run_probes Runs.parse (Servers.open "17" (Some (JInt 17)) 401) Servers.clock
               (Runs.demo false 10) initial_state
    = (Ok (rr, wr), s1)
    /\ generate_report rr wr s1 = (Ok flag, s2)
    /\ exit_code Runs.parse (Servers.open "17" (Some (JInt 17)) 401) Servers.clock
                 (Runs.demo false 10)
       = (if flag then 1 else 0).
Proof.
  assert (H : exists rr wr s1,
             run_probes Runs.parse (Servers.open "17" (Some (JInt 17)) 401)
                        Servers.clock (Runs.demo false 10) initial_state
             = (Ok (rr, wr), s1))
    by (eexists _, _, _; vm_compute; reflexivity).
  destruct H as (rr & wr & s1 & H).
  destruct (insecure_flag_and_exit_code _ _ _ _ rr wr s1 H)
    as (flag & s2 & Hg & _ & Hc).
  exists rr, wr, s1, flag, s2. exact (conj H (conj Hg Hc)).
Defined.

Lemma put_201_or_200_is_writable_witness :
  exists rq resp,
    In (rq, Ok resp)
       (requests_of Runs.parse (Servers.open "17" (Some (JInt 17)) 201)
                    Servers.clock (Runs.demo false 10))
    /\ req_method rq = PUT
    /\ status_code resp = 201
    /\ exit_code Runs.parse (Servers.open "17" (Some (JInt 17)) 201)
                 Servers.clock (Runs.demo false 10) = 1.
Proof.
  exists (write_request Runs.demo_url 1700000000 1700000001),
         (Servers.respond 201 EmptyString None).
  assert (Hin : In (write_request Runs.demo_url 1700000000 1700000001,
                    Ok (Servers.respond 201 EmptyString None))
                   (requests_of Runs.parse (Servers.open "17" (Some (JInt 17)) 201)
                                Servers.clock (Runs.demo false 10)))
    by (vm_compute; do 3 right; left; reflexivity).
  destruct (put_201_or_200_is_writable _ _ _ _ _ _ Hin eq_refl (or_introl eq_refl))
    as (rr & wr & s1 & _ & _ & _ & Hcode).
  split; [exact Hin|]. split; [reflexivity|]. split; [reflexivity | exact Hcode].
Defined.



Lemma skip_write_test_only_gets_witness :
  arg_skip_write_test (Runs.demo true 10) = true
  /\ Forall (fun ev => req_method (fst ev) = GET)
            (requests_of Runs.parse (Servers.open "17" (Some (JInt 17)) 201)
                         Servers.clock (Runs.demo true 10)).
Proof.
  split; [reflexivity|].
  exact (proj1 (skip_write_test_only_gets
                  Runs.parse (Servers.open "17" (Some (JInt 17)) 201)
                  Servers.clock (Runs.demo true 10) eq_refl)).
Defined.


(** ** Further properties on the concrete parser *)












(** *** Instances of the further properties that have hypotheses *)



Lemma interrupt_exits_130_witness :
  In (write_request Runs.demo_url 1700000000 1700000001, Raise KeyboardInterrupt)
     (requests_of Runs.parse (Servers.put_fails KeyboardInterrupt) Servers.clock
                  (Runs.demo false 10))
  /\ exit_code Runs.parse (Servers.put_fails KeyboardInterrupt) Servers.clock
               (Runs.demo false 10) = 130.
Proof.
  assert (Hin : In (write_request Runs.demo_url 1700000000 1700000001,
                    Raise KeyboardInterrupt)
                   (requests_of Runs.parse (Servers.put_fails KeyboardInterrupt)
                                Servers.clock (Runs.demo false 10)))
    by (vm_compute; do 3 right; left; reflexivity).
  split; [exact Hin|].
  refine (proj1 (interrupt_exits_130
                   Runs.parse (Servers.put_fails KeyboardInterrupt) Servers.clock
                   (Runs.demo false 10) _ Hin _)).
  discriminate.
Defined.

Lemma delete_follows_accepted_put_witness :
  In (delete_request Runs.demo_url 1700000000,
      Ok (Servers.respond 200 "null" (Some JNone)))
     (requests_of Runs.parse (Servers.open "17" (Some (JInt 17)) 201) Servers.clock
                  (Runs.demo false 10))
  /\ exit_code Runs.parse (Servers.open "17" (Some (JInt 17)) 201) Servers.clock
               (Runs.demo false 10) = 1.
Proof.
  assert (Hin : In (delete_request Runs.demo_url 1700000000,
                    Ok (Servers.respond 200 "null" (Some JNone)))
                   (requests_of Runs.parse (Servers.open "17" (Some (JInt 17)) 201)
                                Servers.clock (Runs.demo false 10)))
    by (vm_compute; do 4 right; left; reflexivity).
  split; [exact Hin|].
  exact (proj2 (proj2 (delete_follows_accepted_put
                         Runs.parse (Servers.open "17" (Some (JInt 17)) 201)
                         Servers.clock (Runs.demo false 10) _ _ Hin eq_refl))).
Defined.

Lemma accepted_put_is_cleaned_up_witness :
  exists before dout,
    requests_of Runs.parse (Servers.open "17" (Some (JInt 17)) 201) Servers.clock
                (Runs.demo false 10)
    = (before
       ++ [(write_request Runs.demo_url 1700000000 1700000001,
            Ok (Servers.respond 201 EmptyString None));
           (mkRequest DELETE
                      (req_url (write_request Runs.demo_url 1700000000 1700000001))
                      5 None user_agent, dout)])%list.
Proof.
  assert (Hin : In (write_request Runs.demo_url 1700000000 1700000001,
                    Ok (Servers.respond 201 EmptyString None))
                   (requests_of Runs.parse (Servers.open "17" (Some (JInt 17)) 201)
                                Servers.clock (Runs.demo false 10)))
    by (vm_compute; do 3 right; left; reflexivity).
  exact (accepted_put_is_cleaned_up
           Runs.parse (Servers.open "17" (Some (JInt 17)) 201) Servers.clock
           (Runs.demo false 10) _ _ Hin eq_refl (or_intror eq_refl)).
Defined.

Lemma exit_codes_witness :
  (forall u c, Servers.fixed_host u <> Raise (SystemExit c))
  /\ (forall history rq c, Servers.locked history rq <> Raise (SystemExit c))
  /\ (exit_code Servers.fixed_host Servers.locked Servers.clock (Runs.demo false 10) = 0
      \/ exit_code Servers.fixed_host Servers.locked Servers.clock (Runs.demo false 10) = 1
      \/ exit_code Servers.fixed_host Servers.locked Servers.clock (Runs.demo false 10) = 2
      \/ exit_code Servers.fixed_host Servers.locked Servers.clock (Runs.demo false 10)
         = 130).
Proof.
  assert (H1 : forall u c, Servers.fixed_host u <> Raise (SystemExit c))
    by (intros u c; discriminate).
  assert (H2 : forall history rq c, Servers.locked history rq <> Raise (SystemExit c))
    by (intros history rq c; discriminate).
  split; [exact H1|]. split; [exact H2|].
  exact (proj1 (exit_codes Servers.fixed_host Servers.locked Servers.clock
                           (Runs.demo false 10) H1 H2)).
Defined.


Lemma data_is_recorded_only_when_accessible_witness :
  exists rr wr s1,
    run_probes Runs.parse (Servers.open "17" (Some (JInt 17)) 403) Servers.clock
               (Runs.demo true 10) initial_state
    = (Ok (rr, wr), s1)
    /\ (any_has_data rr = true -> any_accessible rr = true).
Proof.
  assert (H : exists rr wr s1,
             run_probes Runs.parse (Servers.open "17" (Some (JInt 17)) 403)
                        Servers.clock (Runs.demo true 10) initial_state
             = (Ok (rr, wr), s1))
    by (eexists _, _, _; vm_compute; reflexivity).
  destruct H as (rr & wr & s1 & H).
  exists rr, wr, s1. split; [exact H|].
  exact (proj2 (data_is_recorded_only_when_accessible
                  Runs.parse (Servers.open "17" (Some (JInt 17)) 403) Servers.clock
                  (Runs.demo true 10) rr wr s1 H)).
Defined.

Lemma put_failure_with_message_is_reported_witness :
  In (write_request Runs.demo_url 1700000000 1700000001,
      Raise (ConnectionError "Connection refused"))
     (requests_of Runs.parse (Servers.put_fails (ConnectionError "Connection refused"))
                  Servers.clock (Runs.demo false 10))
  /\ exists rr s1,
      run_probes Runs.parse (Servers.put_fails (ConnectionError "Connection refused"))
                 Servers.clock (Runs.demo false 10) initial_state
      = (Ok (rr, WError "Connection refused"), s1)
      /\ In "⚠️  Could not test write access: Connection refused"
            (output_of Runs.parse
                       (Servers.put_fails (ConnectionError "Connection refused"))
                       Servers.clock (Runs.demo false 10)).
Proof.
  assert (Hin : In (write_request Runs.demo_url 1700000000 1700000001,
                    Raise (ConnectionError "Connection refused"))
                   (requests_of Runs.parse
                                (Servers.put_fails (ConnectionError "Connection refused"))
                                Servers.clock (Runs.demo false 10)))
    by (vm_compute; do 3 right; left; reflexivity).
  split; [exact Hin|].
  destruct (put_failure_with_message_is_reported
              Runs.parse (Servers.put_fails (ConnectionError "Connection refused"))
              Servers.clock (Runs.demo false 10) _ _ Hin eq_refl eq_refl)
    as (rr & s1 & Hrun & Hline & _); [discriminate|].
  exists rr, s1. exact (conj Hrun Hline).
Defined.

Lemma report_lists_the_three_endpoints_witness :
  exists rr wr s1,
    run_probes Runs.parse Servers.first_times_out Servers.clock (Runs.demo true 10)
               initial_state
    = (Ok (rr, wr), s1)
    /\ Dict.keys rr = test_endpoints.
Proof.
  assert (H : exists rr wr s1,
             run_probes Runs.parse Servers.first_times_out Servers.clock
                        (Runs.demo true 10) initial_state
             = (Ok (rr, wr), s1))
    by (eexists _, _, _; vm_compute; reflexivity).
  destruct H as (rr & wr & s1 & H).
  exists rr, wr, s1. split; [exact H|].
  exact (proj1 (report_lists_the_three_endpoints
                  Runs.parse Servers.first_times_out Servers.clock
                  (Runs.demo true 10) rr wr s1 H)).
Defined.


(** X14.  The check of the host against the Firebase domains is not fatal
    and changes nothing but the output: two runs that differ only in the
    host the parser reports, both non-empty, issue the same requests and
    exit with the same code, and their outputs are the same after the
    warning line that a host outside the Firebase domains gets. *)
Theorem host_warning_changes_only_the_output
        (parser1 parser2 : string -> result string)
        (net : list event -> request -> result response) (time_int : nat -> Z)
        (a : args) (host1 host2 : string) :
  parser1 (normalized (arg_firebase_url a)) = Ok host1 ->
  PyStr.truthy host1 = true ->
  parser2 (normalized (arg_firebase_url a)) = Ok host2 ->
  PyStr.truthy host2 = true ->
  exit_code parser1 net time_int a = exit_code parser2 net time_int a
  /\ requests_of parser1 net time_int a = requests_of parser2 net time_int a
  /\ exists common,
      output_of parser1 net time_int a = (warning_lines host1 ++ common)%list
      /\ output_of parser2 net time_int a = (warning_lines host2 ++ common)%list.
Proof.
  intros Hp1 Ht1 Hp2 Ht2.
  destruct (probes_after_normalize_blind net time_int a (after_init a))
    as (r & s' & lines & Hb).
  destruct (run_accepted_with parser1 net time_int a r s' lines host1 Hb Hp1 Ht1)
    as (Hc1 & Hr1 & Ho1).
  destruct (run_accepted_with parser2 net time_int a r s' lines host2 Hb Hp2 Ht2)
    as (Hc2 & Hr2 & Ho2).
  split; [congruence|]. split; [congruence|].
  eexists. split; [exact Ho1 | exact Ho2].
Qed.

Lemma host_warning_changes_only_the_output_witness :
  exit_code Runs.parse (Servers.open "17" (Some (JInt 17)) 201) Servers.clock
            (Runs.demo false 10)
  = exit_code Servers.other_host (Servers.open "17" (Some (JInt 17)) 201)
              Servers.clock (Runs.demo false 10)
  /\ requests_of Runs.parse (Servers.open "17" (Some (JInt 17)) 201) Servers.clock
                 (Runs.demo false 10)
     = requests_of Servers.other_host (Servers.open "17" (Some (JInt 17)) 201)
                   Servers.clock (Runs.demo false 10).
Proof.
  destruct (host_warning_changes_only_the_output
              Runs.parse Servers.other_host
              (Servers.open "17" (Some (JInt 17)) 201) Servers.clock
              (Runs.demo false 10)
              "demo-default-rtdb.firebaseio.com" "example.org"
              eq_refl eq_refl eq_refl eq_refl) as (Hc & Hr & _).
  exact (conj Hc Hr).
Defined.
